(** * Inventory ledger: transfers, stock status, reorder recommendations, alerts

    A shallow embedding of the request handlers of the inventory
    application (pages/api/transfers, pages/api/stock, pages/api/alerts)
    and of the pure helpers they use (utils/helpers.js), with the
    properties of the design document proved about them.

    Conventions of the embedding:
    - a JSON collection file is a [list] of records, read whole at the
      start of a request and written whole at its end; a write succeeds,
      except in the alerts handler, which provides for its failure;
    - a request handler is a function from the persisted store, the
      request and the clock to a response and the new persisted store;
      what a handler changes in the arrays it has read and does not
      write is lost, as it is in the code;
    - the time stamps one request takes from [new Date()] are one string;
    - identifiers and quantities are JavaScript numbers holding integers;
      they are [Z]. Below 2^53 the sums, differences, doublings and
      halvings the code makes of them are exact, and the rounded quotient
      of two of them compares with 0, 0.5, 1 and 3 as the exact quotient
      does, so quotients are [Q];
    - unit costs are JavaScript numbers holding decimals; they are [Q]
      and their products and sums are the exact ones;
    - a value taken from a request body is a [jsval]. *)

From Stdlib Require Import ZArith QArith Lia Bool Ascii Sorted.
From stdpp Require Import base tactics option list strings pretty.

Local Open Scope Z_scope.

(** ** JavaScript values, truthiness and [parseInt] *)

Module JS.

(** A value as [JSON.parse] yields it for a field of a request body;
    [JUndefined] is an absent field. A number is an integer here: a
    decimal is covered by its string, which [parseInt] reads alike.
    Arrays and objects are left out. *)
Inductive jsval : Type :=
| JUndefined
| JNull
| JBool (b : bool)
| JNum (z : Z)
| JStr (s : string).

#[export] Instance jsval_eq_dec : EqDecision jsval.
Proof. solve_decision. Defined.

(** [ToBoolean]: what [if (v)], [!v], [v ? a : b] and [v || d] test. *)
Definition truthy (v : jsval) : bool :=
  match v with
  | JUndefined | JNull => false
  | JBool b => b
  | JNum z => negb (z =? 0)
  | JStr s => negb (String.eqb s "")
  end.

(** [v === undefined || v === null] *)
Definition nullish (v : jsval) : bool :=
  match v with
  | JUndefined | JNull => true
  | _ => false
  end.

(** [v || d] *)
Definition or_else (v d : jsval) : jsval := if truthy v then v else d.

Definition is_white (c : Ascii.ascii) : bool :=
  let n := Ascii.nat_of_ascii c in
  ((9 <=? n) && (n <=? 13))%nat || (n =? 32)%nat.

Fixpoint skip_white (s : string) : string :=
  match s with
  | String c s' => if is_white c then skip_white s' else s
  | EmptyString => s
  end.

(** The value of a character as a digit in radix up to 36. *)
Definition digit_value (c : Ascii.ascii) : option Z :=
  let n := Z.of_nat (Ascii.nat_of_ascii c) in
  if (48 <=? n) && (n <=? 57) then Some (n - 48)
  else if (97 <=? n) && (n <=? 122) then Some (n - 87)
  else if (65 <=? n) && (n <=? 90) then Some (n - 55)
  else None.

(** The longest prefix of radix-[r] digits, read as a number; [None]
    when that prefix is empty. *)
Fixpoint parse_digits (r : Z) (s : string) (acc : option Z) : option Z :=
  match s with
  | String c s' =>
      match digit_value c with
      | Some d =>
          if d <? r
          then parse_digits r s' (Some (default 0 acc * r + d))
          else acc
      | None => acc
      end
  | EmptyString => acc
  end.

Definition strip_sign (s : string) : Z * string :=
  match s with
  | String "-"%char s' => (-1, s')
  | String "+"%char s' => (1, s')
  | _ => (1, s)
  end.

Definition strip_hex_prefix (s : string) : option string :=
  match s with
  | String "0"%char (String "x"%char s') => Some s'
  | String "0"%char (String "X"%char s') => Some s'
  | _ => None
  end.

(** [parseInt(s, radix)] on a string; [radix] is [None] when the call
    passes none. [None] is [NaN]. *)
Definition parseInt_string (radix : option Z) (s : string) : option Z :=
  let '(sign, body) := strip_sign (skip_white s) in
  let '(r, digits) :=
    match radix with
    | Some r => (r, body)
    | None =>
        match strip_hex_prefix body with
        | Some rest => (16, rest)
        | None => (10, body)
        end
    end in
  (λ n, sign * n) <$> parse_digits r digits None.

(** [parseInt(v, radix)]: the argument goes through [ToString] first.
    The decimal text of an integer number reads back as that integer. *)
Definition parseInt (radix : option Z) (v : jsval) : option Z :=
  match v with
  | JUndefined => parseInt_string radix "undefined"
  | JNull => parseInt_string radix "null"
  | JBool true => parseInt_string radix "true"
  | JBool false => parseInt_string radix "false"
  | JNum z => Some z
  | JStr s => parseInt_string radix s
  end.

(** A JavaScript number as a quotient of two integers can be: the
    quotient itself, an infinity, or [NaN]. *)
Inductive number : Type :=
| NaN
| Inf (negative : bool)
| Fin (q : Q).

(** [a / b] for integers [a] and [b] (with [b] a positive zero). *)
Definition div (a b : Z) : number :=
  if b =? 0 then
    if a =? 0 then NaN else Inf (a <? 0)
  else Fin (inject_Z a / inject_Z b)%Q.

Definition Qltb (x y : Q) : bool := negb (Qle_bool y x).

(** [x < y]; every comparison with [NaN] is false. *)
Definition lt (x y : number) : bool :=
  match x, y with
  | NaN, _ | _, NaN => false
  | Inf nx, Inf ny => nx && negb ny
  | Inf nx, Fin _ => nx
  | Fin _, Inf ny => negb ny
  | Fin p, Fin q => Qltb p q
  end.

(** [x > y] *)
Definition gt (x y : number) : bool := lt y x.

(** [x === y] *)
Definition strict_eq (x y : number) : bool :=
  match x, y with
  | Fin p, Fin q => Qeq_bool p q
  | Inf nx, Inf ny => Bool.eqb nx ny
  | _, _ => false
  end.

End JS.

Import JS.

(** ** Stock status and reorder recommendation *)

(** The object [getStockStatus] returns. The copy of utils/helpers.js
    has no [priority] property; the copies of the alerts API have one. *)
Record StockStatus : Type := mkStockStatus {
  status : string;
  label : string;
  color : string;
  severity : Z;
  priority : option string
}.

(** src/constants/index.js: [STOCK_THRESHOLDS]. No function of the
    repository reads these; every classifier below has its own literals. *)
Module Constants.
Definition STOCK_THRESHOLDS_CRITICAL : Q := 25 # 100.
Definition STOCK_THRESHOLDS_LOW : Q := 1.
Definition STOCK_THRESHOLDS_ADEQUATE : Q := 2.
End Constants.

(** src/utils/helpers.js, used by the pages and by StockStatusChip. *)
Module Helpers.

Definition getStockStatus (quantity reorderPoint : Z) : StockStatus :=
  let ratio := JS.div quantity reorderPoint in
  if JS.strict_eq ratio (Fin 0) then
    mkStockStatus "out" "Out of Stock" "error" 4 None
  else if JS.lt ratio (Fin (1 # 2)) then
    mkStockStatus "critical" "Critical" "error" 3 None
  else if JS.lt ratio (Fin 1) then
    mkStockStatus "low" "Low Stock" "warning" 2 None
  else if JS.gt ratio (Fin 3) then
    mkStockStatus "overstocked" "Overstocked" "info" 0 None
  else
    mkStockStatus "adequate" "Adequate" "success" 1 None.

Record Recommendation : Type := mkRecommendation {
  currentStock : Z;
  reorderPoint : Z;
  recommendedQuantity : Z;
  urgency : string
}.

Definition getReorderRecommendation (currentStock reorderPoint : Z)
  : option Recommendation :=
  if currentStock >=? reorderPoint then None
  else
    let targetStock := reorderPoint * 2 in
    let recommendedOrder := targetStock - currentStock in
    Some (mkRecommendation currentStock reorderPoint recommendedOrder
            (if Qltb (inject_Z currentStock) (inject_Z reorderPoint * (1 # 2))
             then "critical" else "normal")).

End Helpers.

(** ** The record store *)

Module Product.
Record t : Type := mk {
  id : Z;
  sku : string;
  name : string;
  category : string;
  unitCost : Q;
  reorderPoint : Z
}.
End Product.

Module Warehouse.
Record t : Type := mk {
  id : Z;
  code : string;
  name : string;
  location : string
}.
End Warehouse.

Module Stock.
Record t : Type := mk {
  id : Z;
  productId : Z;
  warehouseId : Z;
  quantity : Z;
  createdAt : string;
  updatedAt : string
}.

(** [s.productId === p && s.warehouseId === w] *)
Definition at_ (p w : Z) (s : t) : Prop := productId s = p ∧ warehouseId s = w.

#[export] Instance at_dec p w s : Decision (at_ p w s).
Proof. unfold at_. apply _. Defined.

(** [s.quantity -= q; s.updatedAt = now] and [s.quantity += q; ...] *)
Definition add_quantity (delta : Z) (now : string) (s : t) : t :=
  mk (id s) (productId s) (warehouseId s) (quantity s + delta) (createdAt s) now.
End Stock.

Module Transfer.
Record t : Type := mk {
  id : Z;
  productId : Z;
  fromWarehouseId : Z;
  toWarehouseId : Z;
  quantity : Z;
  notes : string;
  status : string;
  createdAt : string
}.
End Transfer.

Module Alert.
Record t : Type := mk {
  id : Z;
  productId : Z;
  acknowledged : bool;
  acknowledgedAt : option string;
  acknowledgedBy : option string;
  dismissed : bool;
  dismissedAt : option string;
  notes : jsval;
  createdAt : string;
  updatedAt : option string
}.
End Alert.

(** The five collection files under data/. *)
Record Store : Type := mkStore {
  products : list Product.t;
  warehouses : list Warehouse.t;
  stock : list Stock.t;
  transfers : list Transfer.t;
  alerts : list Alert.t
}.

Definition set_stock (st : Store) (l : list Stock.t) : Store :=
  mkStore (products st) (warehouses st) l (transfers st) (alerts st).
Definition set_transfers (st : Store) (l : list Transfer.t) : Store :=
  mkStore (products st) (warehouses st) (stock st) l (alerts st).
Definition set_alerts (st : Store) (l : list Alert.t) : Store :=
  mkStore (products st) (warehouses st) (stock st) (transfers st) l.

(** ** Responses *)

(** The JSON body of an error response. *)
Record ErrorBody : Type := mkError {
  error : string;
  message : option string;
  details : option (list string);
  available : option Z;
  existingId : option Z
}.

Definition err (e m : string) : ErrorBody := mkError e (Some m) None None None.

(** [res.status(code).json(payload)], [res.status(code).json({error, ..})]
    and [res.status(code).end()]. *)
Inductive Response (A : Type) : Type :=
| Json (code : Z) (payload : A)
| Fail (code : Z) (e : ErrorBody)
| Empty (code : Z).
Arguments Json {A} code payload.
Arguments Fail {A} code e.
Arguments Empty {A} code.

Definition http_status {A} (r : Response A) : Z :=
  match r with Json c _ | Fail c _ | Empty c => c end.

(** ** Array helpers *)

(** [l.length ? Math.max(...l.map(id)) + 1 : 1] *)
Definition next_id (ids : list Z) : Z :=
  match ids with
  | [] => 1
  | x :: xs => foldl Z.max x xs + 1
  end.

(** [l.find(P)] *)
Definition js_find {A} (P : A → Prop) `{∀ x, Decision (P x)} (l : list A) : option A :=
  snd <$> list_find P l.

(** [String.prototype.trim] on the white space [parseInt] skips. *)
Fixpoint trim_end (s : string) : string :=
  match s with
  | EmptyString => EmptyString
  | String c s' =>
      match trim_end s' with
      | EmptyString => if JS.is_white c then EmptyString else String c EmptyString
      | t => String c t
      end
  end.

Definition trim (s : string) : string := trim_end (JS.skip_white s).

(** The stock of a product in a warehouse as the handlers look it up: the
    first record of the pair; no record is no stock. *)
Definition getQuantity (p w : Z) (l : list Stock.t) : Z :=
  match list_find (Stock.at_ p w) l with
  | Some (_, s) => Stock.quantity s
  | None => 0
  end.

(** [stock.filter(s => s.productId === p).reduce((sum, s) => sum + s.quantity, 0)] *)
Definition totalQuantity (p : Z) (l : list Stock.t) : Z :=
  foldl (λ sum s, sum + Stock.quantity s) 0
    (filter (λ s, Stock.productId s = p) l).

(** ** src/pages/api/transfers/index.js *)

Module Transfers.

(** [req.body] *)
Record Body : Type := mkBody {
  productId : jsval;
  fromWarehouseId : jsval;
  toWarehouseId : jsval;
  quantity : jsval;
  notes : jsval
}.

(** The enriched transfer of the 201 response. *)
Record Created : Type := mkCreated {
  transfer : Transfer.t;
  product : Product.t;
  fromWarehouse : Warehouse.t;
  toWarehouse : Warehouse.t
}.

Definition validation (m : string) : ErrorBody := err "Validation failed" m.
Definition not_found (m : string) : ErrorBody := err "Not Found" m.
Definition internal_error : ErrorBody :=
  err "Internal Server Error" "An error occurred while processing the transfer.".

Definition no_stock_message (p : Product.t) (w : Warehouse.t) : string :=
  Product.name p +:+ " is not available at " +:+ Warehouse.name w +:+ ".".

Definition insufficient_message (avail : Z) (w : Warehouse.t) (q : Z) : string :=
  "Only " +:+ pretty avail +:+ " units available at " +:+ Warehouse.name w
    +:+ ". Cannot transfer " +:+ pretty q +:+ " units.".

Definition insufficient (avail : Z) (w : Warehouse.t) (q : Z) : ErrorBody :=
  mkError "Insufficient stock" (Some (insufficient_message avail w q))
    None (Some avail) None.

(** [notes ? notes.trim().substring(0, 500) : ''];
    [None] when the call of [trim] on a value that has none throws. *)
Definition clean_notes (notes : jsval) : option string :=
  if JS.truthy notes then
    match notes with
    | JStr s => Some (String.substring 0 500 (trim s))
    | _ => None
    end
  else Some "".

(** The POST branch of [handler]. The timestamps a request takes are
    all [now]. *)
Definition handler_POST (st : Store) (b : Body) (now : string)
  : Response Created * Store :=
  if JS.nullish (productId b) then
    (Fail 400 (validation "Product ID is required."), st)
  else if JS.nullish (fromWarehouseId b) then
    (Fail 400 (validation "Source warehouse ID is required."), st)
  else if JS.nullish (toWarehouseId b) then
    (Fail 400 (validation "Destination warehouse ID is required."), st)
  else if JS.nullish (quantity b) then
    (Fail 400 (validation "Quantity is required."), st)
  else
  let parsedProductId := JS.parseInt (Some 10) (productId b) in
  let parsedFromWarehouseId := JS.parseInt (Some 10) (fromWarehouseId b) in
  let parsedToWarehouseId := JS.parseInt (Some 10) (toWarehouseId b) in
  let parsedQuantity := JS.parseInt (Some 10) (quantity b) in
  match parsedProductId with
  | None => (Fail 400 (validation "Product ID must be a valid number."), st)
  | Some pid =>
  match parsedFromWarehouseId, parsedToWarehouseId with
  | None, _ | _, None =>
      (Fail 400 (validation "Warehouse IDs must be valid numbers."), st)
  | Some from, Some to =>
  if from =? to then
    (Fail 400 (validation "Source and destination warehouses must be different."), st)
  else
  match parsedQuantity with
  | None => (Fail 400 (validation "Quantity must be a positive number."), st)
  | Some q =>
  if q <=? 0 then
    (Fail 400 (validation "Quantity must be a positive number."), st)
  else
  let stock0 := stock st in
  let transfers0 := transfers st in
  match js_find (λ p, Product.id p = pid) (products st) with
  | None => (Fail 404 (not_found "The specified product does not exist."), st)
  | Some product =>
  let fromW := js_find (λ w, Warehouse.id w = from) (warehouses st) in
  let toW := js_find (λ w, Warehouse.id w = to) (warehouses st) in
  match fromW with
  | None => (Fail 404 (not_found "Source warehouse does not exist."), st)
  | Some fromWarehouse =>
  match toW with
  | None => (Fail 404 (not_found "Destination warehouse does not exist."), st)
  | Some toWarehouse =>
  match list_find (Stock.at_ pid from) stock0 with
  | None =>
      (Fail 400 (err "No stock available" (no_stock_message product fromWarehouse)), st)
  | Some (sourceStockIndex, sourceStock) =>
  if Stock.quantity sourceStock <? q then
    (Fail 400 (insufficient (Stock.quantity sourceStock) fromWarehouse q), st)
  else
  let stock1 := alter (Stock.add_quantity (- q) now) sourceStockIndex stock0 in
  let stock2 :=
    match list_find (Stock.at_ pid to) stock1 with
    | None =>
        stock1 ++ [Stock.mk (next_id (Stock.id <$> stock1)) pid to q now now]
    | Some (destStockIndex, _) =>
        alter (Stock.add_quantity q now) destStockIndex stock1
    end in
  match clean_notes (notes b) with
  | None => (Fail 500 internal_error, st)
  | Some cleaned =>
  let newTransfer :=
    Transfer.mk (next_id (Transfer.id <$> transfers0)) pid from to q
      cleaned "completed" now in
  (Json 201 (mkCreated newTransfer product fromWarehouse toWarehouse),
   set_transfers (set_stock st stock2) (transfers0 ++ [newTransfer]))
  end end end end end end end end.

End Transfers.

(** ** src/pages/api/stock/index.js and src/pages/api/stock/[id].js *)

Module StockApi.

(** [req.body] of POST and of PUT *)
Record Body : Type := mkBody {
  productId : jsval;
  warehouseId : jsval;
  quantity : jsval
}.

Definition is_undefined (v : jsval) : bool :=
  match v with JUndefined => true | _ => false end.

Definition quantity_message : string := "Quantity must be a non-negative integer".

Definition check_product (v : jsval) (ps : list Product.t) : list string :=
  match JS.parseInt (Some 10) v with
  | None => ["Product ID must be a valid number"]
  | Some productId =>
      match js_find (λ p, Product.id p = productId) ps with
      | None => ["Product not found"]
      | Some _ => []
      end
  end.

Definition check_warehouse (v : jsval) (ws : list Warehouse.t) : list string :=
  match JS.parseInt (Some 10) v with
  | None => ["Warehouse ID must be a valid number"]
  | Some warehouseId =>
      match js_find (λ w, Warehouse.id w = warehouseId) ws with
      | None => ["Warehouse not found"]
      | Some _ => []
      end
  end.

Definition check_quantity (v : jsval) : list string :=
  match JS.parseInt (Some 10) v with
  | None => [quantity_message]
  | Some quantity => if quantity <? 0 then [quantity_message] else []
  end.

(** index.js: [validateStock] *)
Definition validateStock (data : Body) (ps : list Product.t)
  (ws : list Warehouse.t) : list string :=
  (if JS.nullish (productId data) then ["Product ID is required"]
   else check_product (productId data) ps)
  ++ (if JS.nullish (warehouseId data) then ["Warehouse ID is required"]
      else check_warehouse (warehouseId data) ws)
  ++ (if JS.nullish (quantity data) then ["Quantity is required"]
      else check_quantity (quantity data)).

(** [id].js: [validateStockUpdate] *)
Definition validateStockUpdate (data : Body) (ps : list Product.t)
  (ws : list Warehouse.t) : list string :=
  (if is_undefined (productId data) then []
   else check_product (productId data) ps)
  ++ (if is_undefined (warehouseId data) then []
      else check_warehouse (warehouseId data) ws)
  ++ (if is_undefined (quantity data) then []
      else check_quantity (quantity data)).

Definition validation (errors : list string) : ErrorBody :=
  mkError "Validation failed" None (Some errors) None None.

Definition conflict (m : string) (existing : Z) : ErrorBody :=
  mkError "Conflict" (Some m) None None (Some existing).

Definition internal_error : ErrorBody :=
  err "Internal Server Error"
    "An unexpected error occurred while processing your request".

(** index.js, the POST branch of [handler]: create a stock record. *)
Definition handler_POST (st : Store) (b : Body) (now : string)
  : Response Stock.t * Store :=
  let stock0 := stock st in
  let validationErrors := validateStock b (products st) (warehouses st) in
  if (0 <? length validationErrors)%nat then
    (Fail 400 (validation validationErrors), st)
  else
  match JS.parseInt (Some 10) (productId b),
        JS.parseInt (Some 10) (warehouseId b),
        JS.parseInt (Some 10) (quantity b) with
  | Some productId, Some warehouseId, Some quantity =>
      match js_find (Stock.at_ productId warehouseId) stock0 with
      | Some existingStock =>
          (Fail 409
             (conflict "A stock record for this product and warehouse already exists. Use PUT to update."
                (Stock.id existingStock)), st)
      | None =>
          let newStock :=
            Stock.mk (next_id (Stock.id <$> stock0)) productId warehouseId
              quantity now now in
          (Json 201 newStock, set_stock st (stock0 ++ [newStock]))
      end
  | _, _, _ =>
      (* not reached: [validateStock] has rejected every [NaN] *)
      (Fail 500 internal_error, st)
  end.

(** [id].js, the PUT branch of [handler]: update a stock record.
    [id] is [req.query.id]. *)
Definition handler_PUT (st : Store) (id : jsval) (b : Body) (now : string)
  : Response Stock.t * Store :=
  match JS.parseInt (Some 10) id with
  | None => (Fail 400 (err "Bad Request" "Invalid stock ID"), st)
  | Some parsedId =>
  let stock0 := stock st in
  match list_find (λ s, Stock.id s = parsedId) stock0 with
  | None => (Fail 404 (err "Not Found" "Stock item not found"), st)
  | Some (index, old) =>
  let validationErrors := validateStockUpdate b (products st) (warehouses st) in
  if (0 <? length validationErrors)%nat then
    (Fail 400 (validation validationErrors), st)
  else
  let productId' :=
    if is_undefined (productId b) then Some (Stock.productId old)
    else JS.parseInt (Some 10) (productId b) in
  let warehouseId' :=
    if is_undefined (warehouseId b) then Some (Stock.warehouseId old)
    else JS.parseInt (Some 10) (warehouseId b) in
  let quantity' :=
    if is_undefined (quantity b) then Some (Stock.quantity old)
    else JS.parseInt (Some 10) (quantity b) in
  match productId', warehouseId', quantity' with
  | Some productId, Some warehouseId, Some quantity =>
      let duplicate :=
        if bool_decide (productId ≠ Stock.productId old)
           || bool_decide (warehouseId ≠ Stock.warehouseId old)
        then js_find (λ s, Stock.at_ productId warehouseId s ∧ Stock.id s ≠ parsedId) stock0
        else None in
      match duplicate with
      | Some existingStock =>
          (Fail 409
             (conflict "A stock record for this product and warehouse already exists"
                (Stock.id existingStock)), st)
      | None =>
          let updated :=
            Stock.mk parsedId productId warehouseId quantity
              (Stock.createdAt old) now in
          (Json 200 updated, set_stock st (<[index := updated]> stock0))
      end
  | _, _, _ =>
      (* not reached: [validateStockUpdate] has rejected every [NaN] *)
      (Fail 500 internal_error, st)
  end
  end end.

(** [id].js, the DELETE branch of [handler]. *)
Definition handler_DELETE (st : Store) (id : jsval)
  : Response Stock.t * Store :=
  match JS.parseInt (Some 10) id with
  | None => (Fail 400 (err "Bad Request" "Invalid stock ID"), st)
  | Some parsedId =>
  match list_find (λ s, Stock.id s = parsedId) (stock st) with
  | None => (Fail 404 (err "Not Found" "Stock item not found"), st)
  | Some (index, _) => (Empty 204, set_stock st (delete index (stock st)))
  end end.

End StockApi.

(** ** src/pages/api/alerts/index.js *)

Module AlertsApi.

Definition getStockStatus (quantity reorderPoint : Z) : StockStatus :=
  let ratio := JS.div quantity reorderPoint in
  if JS.strict_eq ratio (Fin 0) then
    mkStockStatus "out" "Out of Stock" "error" 4 (Some "critical")
  else if JS.lt ratio (Fin (1 # 2)) then
    mkStockStatus "critical" "Critical" "error" 3 (Some "high")
  else if JS.lt ratio (Fin 1) then
    mkStockStatus "low" "Low Stock" "warning" 2 (Some "medium")
  else if JS.gt ratio (Fin 3) then
    mkStockStatus "overstocked" "Overstocked" "info" 0 (Some "low")
  else
    mkStockStatus "adequate" "Adequate" "success" 1 (Some "none").

Record Recommendation : Type := mkRecommendation {
  recommendedQuantity : Z;
  estimatedCost : Q;
  urgency : string;
  targetStock : Z
}.

Definition getReorderRecommendation (currentStock reorderPoint : Z)
  (unitCost : Q) : option Recommendation :=
  if currentStock >=? reorderPoint then None
  else
    let targetStock := reorderPoint * 2 in
    let recommendedQuantity := targetStock - currentStock in
    let estimatedCost := (inject_Z recommendedQuantity * unitCost)%Q in
    Some (mkRecommendation recommendedQuantity estimatedCost
            (if Qltb (inject_Z currentStock) (inject_Z reorderPoint * (1 # 2))
             then "critical" else "normal")
            targetStock).

(** One element of [warehouseBreakdown]. *)
Record Breakdown : Type := mkBreakdown {
  warehouseId : Z;
  warehouseName : string;
  warehouseCode : string;
  warehouseLocation : string;
  quantity : Z
}.

(** [s || d] on strings *)
Definition str_or (s d : string) : string := if String.eqb s "" then d else s.

(** [s || null] on a time stamp *)
Definition or_null (o : option string) : option string :=
  match o with
  | Some s => if String.eqb s "" then None else Some s
  | None => None
  end.

(** One element of [productAlerts]. *)
Module ProductAlert.
Record t : Type := mk {
  id : jsval;
  productId : Z;
  product : Product.t;
  currentStock : Z;
  stockStatus : StockStatus;
  reorderRecommendation : option Recommendation;
  warehouseBreakdown : list Breakdown;
  acknowledged : bool;
  acknowledgedAt : option string;
  acknowledgedBy : option string;
  dismissed : bool;
  dismissedAt : option string;
  notes : jsval;
  lastUpdated : string
}.
End ProductAlert.

(** [req.query] of GET; [None] is an absent parameter. *)
Module Query.
Record t : Type := mk {
  status : option string;
  category : option string;
  acknowledged : option string
}.
End Query.

Record Summary : Type := mkSummary {
  total : nat;
  critical : nat;
  low : nat;
  adequate : nat;
  overstocked : nat;
  needsAttention : nat;
  totalReorderValue : Q
}.

Record Listing : Type := mkListing {
  alerts_of : list ProductAlert.t;
  summary : Summary
}.

Definition breakdown (ws : list Warehouse.t) (s : Stock.t) : Breakdown :=
  let warehouse := js_find (λ w, Warehouse.id w = Stock.warehouseId s) ws in
  mkBreakdown (Stock.warehouseId s)
    (str_or (from_option Warehouse.name "" warehouse) "Unknown")
    (from_option Warehouse.code "" warehouse)
    (from_option Warehouse.location "" warehouse)
    (Stock.quantity s).

(** The callback of [products.map] *)
Definition productAlert (st : Store) (now : string) (product : Product.t)
  : ProductAlert.t :=
  let productStock := filter (λ s, Stock.productId s = Product.id product) (stock st) in
  let totalQuantity := foldl (λ sum s, sum + Stock.quantity s) 0 productStock in
  let stockStatus := getStockStatus totalQuantity (Product.reorderPoint product) in
  let reorderRecommendation :=
    getReorderRecommendation totalQuantity (Product.reorderPoint product)
      (Product.unitCost product) in
  let warehouseBreakdown := breakdown (warehouses st) <$> productStock in
  let existingAlert :=
    js_find (λ a, Alert.productId a = Product.id product) (alerts st) in
  ProductAlert.mk
    (match existingAlert with
     | Some a =>
         if Alert.id a =? 0 then JStr ("alert-" +:+ pretty (Product.id product))
         else JNum (Alert.id a)
     | None => JStr ("alert-" +:+ pretty (Product.id product))
     end)
    (Product.id product)
    product
    totalQuantity
    stockStatus
    reorderRecommendation
    warehouseBreakdown
    (from_option Alert.acknowledged false existingAlert)
    (or_null (existingAlert ≫= Alert.acknowledgedAt))
    (or_null (existingAlert ≫= Alert.acknowledgedBy))
    (from_option Alert.dismissed false existingAlert)
    (or_null (existingAlert ≫= Alert.dismissedAt))
    (JS.or_else (from_option Alert.notes JUndefined existingAlert) (JStr ""))
    now.

(** [productAlerts.sort((a, b) => b.stockStatus.severity - a.stockStatus.severity)]:
    the sort of an array is stable, so an alert goes before the first
    one that is not more severe than it. *)
Fixpoint insert_by_severity (a : ProductAlert.t) (l : list ProductAlert.t)
  : list ProductAlert.t :=
  match l with
  | [] => [a]
  | b :: l' =>
      if severity (ProductAlert.stockStatus a) <? severity (ProductAlert.stockStatus b)
      then b :: insert_by_severity a l'
      else a :: l
  end.

Definition sort_by_severity (l : list ProductAlert.t) : list ProductAlert.t :=
  foldr insert_by_severity [] l.

(** [s.split(',')] *)
Fixpoint split_comma (s : string) : list string :=
  match s with
  | EmptyString => [EmptyString]
  | String c s' =>
      if Ascii.eqb c ","%char then EmptyString :: split_comma s'
      else
        match split_comma s' with
        | h :: t => String c h :: t
        | [] => [String c EmptyString]
        end
  end.

Definition has_status (names : list string) (a : ProductAlert.t) : Prop :=
  status (ProductAlert.stockStatus a) ∈ names.

#[export] Instance has_status_dec names a : Decision (has_status names a).
Proof. unfold has_status. apply _. Defined.

Definition filter_status (q : option string) (l : list ProductAlert.t)
  : list ProductAlert.t :=
  match q with
  | Some s =>
      if String.eqb s "" then l
      else filter (has_status (split_comma s)) l
  | None => l
  end.

Definition filter_category (q : option string) (l : list ProductAlert.t)
  : list ProductAlert.t :=
  match q with
  | Some c =>
      if String.eqb c "" then l
      else filter (λ a, Product.category (ProductAlert.product a) = c) l
  | None => l
  end.

Definition filter_acknowledged (q : option string) (l : list ProductAlert.t)
  : list ProductAlert.t :=
  match q with
  | Some v =>
      let isAcknowledged := String.eqb v "true" in
      filter (λ a, ProductAlert.acknowledged a = isAcknowledged) l
  | None => l
  end.

(** [x || 0] on a cost *)
Definition cost_or_zero (x : Q) : Q := if Qeq_bool x 0 then 0%Q else x.

Definition summarize (productAlerts : list ProductAlert.t) : Summary :=
  mkSummary
    (length productAlerts)
    (length (filter (has_status ["critical"; "out"]) productAlerts))
    (length (filter (has_status ["low"]) productAlerts))
    (length (filter (has_status ["adequate"]) productAlerts))
    (length (filter (has_status ["overstocked"]) productAlerts))
    (length (filter (λ a, 2 ≤ severity (ProductAlert.stockStatus a)
                          ∧ ProductAlert.acknowledged a = false) productAlerts))
    (foldl (λ sum a,
              sum + from_option (λ r, cost_or_zero (estimatedCost r)) 0
                      (ProductAlert.reorderRecommendation a))%Q
       0%Q
       (filter (λ a, is_Some (ProductAlert.reorderRecommendation a)) productAlerts)).

(** The GET branch of [handler]: [listAlerts]. *)
Definition handler_GET (st : Store) (q : Query.t) (now : string)
  : Response Listing :=
  let productAlerts := sort_by_severity (productAlert st now <$> products st) in
  let filteredAlerts :=
    filter_acknowledged (Query.acknowledged q)
      (filter_category (Query.category q)
         (filter_status (Query.status q) productAlerts)) in
  Json 200 (mkListing filteredAlerts (summarize productAlerts)).

(** [req.body] of POST *)
Module Body.
Record t : Type := mk {
  productId : jsval;
  action : jsval;
  notes : jsval
}.
End Body.

(** The body of the 200 response of POST *)
Module Updated.
Record t : Type := mk {
  success : bool;
  alert : Alert.t;
  persisted : bool;
  message : string
}.
End Updated.

Definition valid_actions : list string :=
  ["acknowledge"; "unacknowledge"; "dismiss"; "undismiss"; "update_notes"].

Definition invalid_action : ErrorBody :=
  err "Invalid action"
    "Valid actions are: acknowledge, unacknowledge, dismiss, undismiss, update_notes".

(** The [switch (action)]; [None] is its [default] branch. *)
Definition apply_action (action notes : jsval) (now : string) (a : Alert.t)
  : option Alert.t :=
  let '(Alert.mk id pid ack ackAt ackBy dis disAt nts created updated) := a in
  if decide (action = JStr "acknowledge") then
    Some (Alert.mk id pid true (Some now) ackBy dis disAt nts created updated)
  else if decide (action = JStr "unacknowledge") then
    Some (Alert.mk id pid false None ackBy dis disAt nts created updated)
  else if decide (action = JStr "dismiss") then
    Some (Alert.mk id pid ack ackAt ackBy true (Some now) nts created updated)
  else if decide (action = JStr "undismiss") then
    Some (Alert.mk id pid ack ackAt ackBy false None nts created updated)
  else if decide (action = JStr "update_notes") then
    Some (Alert.mk id pid ack ackAt ackBy dis disAt
            (JS.or_else notes (JStr "")) created updated)
  else None.

(** [alertRecords[alertIndex].updatedAt = now] *)
Definition touch (now : string) (a : Alert.t) : Alert.t :=
  let '(Alert.mk id pid ack ackAt ackBy dis disAt nts created _) := a in
  Alert.mk id pid ack ackAt ackBy dis disAt nts created (Some now).

(** [a.id || 0] *)
Definition id_or_zero (a : Alert.t) : Z :=
  if Alert.id a =? 0 then 0 else Alert.id a.

(** The POST branch of [handler]: [applyAlertAction]. [writable] tells
    whether [writeJsonFile] succeeds (it fails on a read-only
    deployment, and the handler goes on). *)
Definition handler_POST (st : Store) (b : Body.t) (now : string)
  (writable : bool) : Response Updated.t * Store :=
  if negb (JS.truthy (Body.productId b)) then
    (Fail 400 (err "Missing product ID" "Product ID is required."), st)
  else
  let alertRecords := alerts st in
  let missing : Response Updated.t * Store :=
    (Fail 404 (err "Product not found" "The specified product does not exist."), st) in
  match JS.parseInt None (Body.productId b) with
  | None => missing (* [NaN] is the id of no product *)
  | Some pid =>
  match js_find (λ p, Product.id p = pid) (products st) with
  | None => missing
  | Some product =>
  let '(alertRecords1, alertIndex, current) :=
    match list_find (λ a, Alert.productId a = pid) alertRecords with
    | Some (i, a) => (alertRecords, i, a)
    | None =>
        let newId := next_id (id_or_zero <$> alertRecords) in
        let created :=
          Alert.mk newId pid false None None false None (JStr "") now None in
        (alertRecords ++ [created], length alertRecords, created)
    end in
  match apply_action (Body.action b) (Body.notes b) now current with
  | None => (Fail 400 invalid_action, st)
  | Some changed =>
      let final := touch now changed in
      let alertRecords2 := <[alertIndex := final]> alertRecords1 in
      (Json 200
         (Updated.mk true final writable
            (if writable then "Alert updated successfully"
             else "Alert updated for this session (changes not persisted on serverless deployment)")),
       if writable then set_alerts st alertRecords2 else st)
  end end end.

End AlertsApi.

(** ** src/pages/api/alerts/[productId].js: its own copy of the classifier *)

Module AlertApi.

Definition getStockStatus (quantity reorderPoint : Z) : StockStatus :=
  let ratio := JS.div quantity reorderPoint in
  if JS.strict_eq ratio (Fin 0) then
    mkStockStatus "out" "Out of Stock" "error" 4 (Some "critical")
  else if JS.lt ratio (Fin (1 # 2)) then
    mkStockStatus "critical" "Critical" "error" 3 (Some "high")
  else if JS.lt ratio (Fin 1) then
    mkStockStatus "low" "Low Stock" "warning" 2 (Some "medium")
  else if JS.gt ratio (Fin 3) then
    mkStockStatus "overstocked" "Overstocked" "info" 0 (Some "low")
  else
    mkStockStatus "adequate" "Adequate" "success" 1 (Some "none").

End AlertApi.

(** ** src/pages/products/index.js *)

(** src/pages/products/index.js colours its stock bar by a percentage,
    with a guard for a reorder point of zero. *)
Module ProductsPage.

(** [product.reorderPoint > 0 ? (totalQuantity / product.reorderPoint) * 100 : 0] *)
Definition stockPercentage (totalQuantity reorderPoint : Z) : Q :=
  if 0 <? reorderPoint
  then (inject_Z totalQuantity / inject_Z reorderPoint * 100)%Q
  else 0%Q.

Definition getStockStatusColor (percentage : Q) : string :=
  if Qeq_bool percentage 0 then "error"
  else if Qltb percentage 50 then "error"
  else if Qltb percentage 100 then "warning"
  else if Qltb percentage 200 then "success"
  else "info".

End ProductsPage.

(** ** The preconditions of a transfer as the design document lists them *)

Module TransferSpec.
Import Transfers.

Inductive Precondition : Type :=
| WellTyped            (* 1. the four inputs present and well-typed *)
| DistinctWarehouses   (* 2. fromWarehouseId ≠ toWarehouseId *)
| PositiveQuantity     (* 3. quantity is a positive integer *)
| ProductExists        (* 4. the product exists *)
| WarehousesExist      (* 5. both warehouses exist *)
| SufficientStock.     (* 6. a record of the source with quantity ≥ requested *)

#[export] Instance Precondition_eq_dec : EqDecision Precondition.
Proof. solve_decision. Defined.

(** An input that is present and reads as a number: what the handler
    takes for well-typed is what [parseInt] reads. *)
Definition well_typed (v : jsval) : option Z :=
  if JS.nullish v then None else JS.parseInt (Some 10) v.

(** The first precondition that fails, in the order of the document;
    [None] when all six hold. *)
Definition first_failure (st : Store) (b : Body) : option Precondition :=
  match well_typed (productId b), well_typed (fromWarehouseId b),
        well_typed (toWarehouseId b), well_typed (quantity b) with
  | Some p, Some from, Some to, Some q =>
      if bool_decide (from = to) then Some DistinctWarehouses
      else if bool_decide (q ≤ 0) then Some PositiveQuantity
      else if bool_decide (Exists (λ x, Product.id x = p) (products st)) then
        if bool_decide (Exists (λ w, Warehouse.id w = from) (warehouses st)
                        ∧ Exists (λ w, Warehouse.id w = to) (warehouses st)) then
          if bool_decide (Exists (λ s, Stock.at_ p from s ∧ q ≤ Stock.quantity s)
                            (stock st))
          then None
          else Some SufficientStock
        else Some WarehousesExist
      else Some ProductExists
  | _, _, _, _ => Some WellTyped
  end.

End TransferSpec.

(** ** The checks of the transfer handler, one by one *)

Module TransferChecks.
Import Transfers.

Inductive Check : Type :=
| ProductIdPresent
| SourceIdPresent
| DestinationIdPresent
| QuantityPresent
| ProductIdNumeric
| WarehouseIdsNumeric
| WarehousesDiffer
| QuantityPositive
| ProductFound
| SourceFound
| DestinationFound
| SourceStockFound
| SourceStockSufficient.

#[export] Instance Check_eq_dec : EqDecision Check.
Proof. solve_decision. Defined.

(** The order in which the handler makes them. *)
Definition order : list Check :=
  [ProductIdPresent; SourceIdPresent; DestinationIdPresent; QuantityPresent;
   ProductIdNumeric; WarehouseIdsNumeric; WarehousesDiffer; QuantityPositive;
   ProductFound; SourceFound; DestinationFound;
   SourceStockFound; SourceStockSufficient].

Definition num (v : jsval) : option Z := JS.parseInt (Some 10) v.

Definition find_product (st : Store) (b : Body) : option Product.t :=
  p ← num (productId b); js_find (λ x, Product.id x = p) (products st).

Definition find_warehouse (st : Store) (v : jsval) : option Warehouse.t :=
  w ← num v; js_find (λ x, Warehouse.id x = w) (warehouses st).

Definition find_source_stock (st : Store) (b : Body) : option Stock.t :=
  p ← num (productId b); w ← num (fromWarehouseId b);
  js_find (Stock.at_ p w) (stock st).

(** Each check on its own, whatever the others say. *)
Definition holds (st : Store) (b : Body) (c : Check) : Prop :=
  match c with
  | ProductIdPresent => JS.nullish (productId b) = false
  | SourceIdPresent => JS.nullish (fromWarehouseId b) = false
  | DestinationIdPresent => JS.nullish (toWarehouseId b) = false
  | QuantityPresent => JS.nullish (quantity b) = false
  | ProductIdNumeric => is_Some (num (productId b))
  | WarehouseIdsNumeric =>
      is_Some (num (fromWarehouseId b)) ∧ is_Some (num (toWarehouseId b))
  | WarehousesDiffer =>
      ¬ (is_Some (num (fromWarehouseId b))
         ∧ num (fromWarehouseId b) = num (toWarehouseId b))
  | QuantityPositive => ∃ q, num (quantity b) = Some q ∧ 0 < q
  | ProductFound => is_Some (find_product st b)
  | SourceFound => is_Some (find_warehouse st (fromWarehouseId b))
  | DestinationFound => is_Some (find_warehouse st (toWarehouseId b))
  | SourceStockFound => is_Some (find_source_stock st b)
  | SourceStockSufficient =>
      ∃ s q, find_source_stock st b = Some s ∧ num (quantity b) = Some q
             ∧ q ≤ Stock.quantity s
  end.

#[export] Instance holds_dec st b c : Decision (holds st b c).
Proof.
  destruct c; simpl; try apply _.
  - destruct (num (quantity b)) as [q|].
    + destruct (decide (0 < q)); [left; eauto|right; intros (?&?&?); simplify_eq; lia].
    + right; intros (?&?&?); simplify_eq.
  - destruct (find_source_stock st b) as [s|].
    + destruct (num (quantity b)) as [q|].
      * destruct (decide (q ≤ Stock.quantity s));
          [left; eauto|right; intros (?&?&?&?&?); simplify_eq; lia].
      * right; intros (?&?&?&?&?); simplify_eq.
    + right; intros (?&?&?&?&?); simplify_eq.
Defined.

(** The first check that does not hold. *)
Definition first_failed (st : Store) (b : Body) : option Check :=
  snd <$> list_find (λ c, ¬ holds st b c) order.

(** The response the handler gives when check [c] is the one that fails. *)
Definition failure (st : Store) (b : Body) (c : Check)
  : option (Z * ErrorBody) :=
  match c with
  | ProductIdPresent => Some (400, validation "Product ID is required.")
  | SourceIdPresent => Some (400, validation "Source warehouse ID is required.")
  | DestinationIdPresent =>
      Some (400, validation "Destination warehouse ID is required.")
  | QuantityPresent => Some (400, validation "Quantity is required.")
  | ProductIdNumeric => Some (400, validation "Product ID must be a valid number.")
  | WarehouseIdsNumeric =>
      Some (400, validation "Warehouse IDs must be valid numbers.")
  | WarehousesDiffer =>
      Some (400, validation "Source and destination warehouses must be different.")
  | QuantityPositive =>
      Some (400, validation "Quantity must be a positive number.")
  | ProductFound => Some (404, not_found "The specified product does not exist.")
  | SourceFound => Some (404, not_found "Source warehouse does not exist.")
  | DestinationFound =>
      Some (404, not_found "Destination warehouse does not exist.")
  | SourceStockFound =>
      product ← find_product st b;
      fromWarehouse ← find_warehouse st (fromWarehouseId b);
      Some (400, err "No stock available" (no_stock_message product fromWarehouse))
  | SourceStockSufficient =>
      fromWarehouse ← find_warehouse st (fromWarehouseId b);
      sourceStock ← find_source_stock st b;
      q ← num (quantity b);
      Some (400, insufficient (Stock.quantity sourceStock) fromWarehouse q)
  end.

(** The precondition of the design document a check belongs to. *)
Definition precondition_of (c : Check) : TransferSpec.Precondition :=
  match c with
  | ProductIdPresent | SourceIdPresent | DestinationIdPresent
  | QuantityPresent | ProductIdNumeric | WarehouseIdsNumeric =>
      TransferSpec.WellTyped
  | WarehousesDiffer => TransferSpec.DistinctWarehouses
  | QuantityPositive => TransferSpec.PositiveQuantity
  | ProductFound => TransferSpec.ProductExists
  | SourceFound | DestinationFound => TransferSpec.WarehousesExist
  | SourceStockFound | SourceStockSufficient => TransferSpec.SufficientStock
  end.

End TransferChecks.

(** ** What a transfer writes *)

(** The stock array a request that passes every check writes: the source
    record at index [i] debited, the destination record credited or
    created (transfers/index.js, lines 166 to 190). *)
Definition ledger_after (l : list Stock.t) (i : nat) (p to q : Z) (now : string)
  : list Stock.t :=
  let l1 := alter (Stock.add_quantity (- q) now) i l in
  match list_find (Stock.at_ p to) l1 with
  | None => l1 ++ [Stock.mk (next_id (Stock.id <$> l1)) p to q now now]
  | Some (j, _) => alter (Stock.add_quantity q now) j l1
  end.

(** ** Non-negative stock *)

Definition non_negative (l : list Stock.t) : Prop :=
  Forall (λ s, 0 ≤ Stock.quantity s) l.

(** ** Alert records without their time stamps *)

Definition untimed (a : Alert.t) : Alert.t :=
  Alert.mk (Alert.id a) (Alert.productId a) (Alert.acknowledged a) None
    (Alert.acknowledgedBy a) (Alert.dismissed a) None (Alert.notes a) "" None.

(** The array, the index and the record an alert action works on: the
    first record of the product, or the one created for it
    (alerts/index.js, lines 190 to 207). *)
Definition located (records : list Alert.t) (pid : Z) (now : string)
  : list Alert.t * nat * Alert.t :=
  match list_find (λ a, Alert.productId a = pid) records with
  | Some (i, a) => (records, i, a)
  | None =>
      let created :=
        Alert.mk (next_id (AlertsApi.id_or_zero <$> records)) pid false None None
          false None (JStr "") now None in
      (records ++ [created], length records, created)
  end.

(** A GET without query parameters. *)
Definition no_filter : AlertsApi.Query.t := AlertsApi.Query.mk None None None.

(** ** A small store for the scenarios *)

Module Scenario.

Definition X : Product.t := Product.mk 1 "SKU-X" "Product X" "Electronics" (5 # 2) 100.
Definition Y : Product.t := Product.mk 2 "SKU-Y" "Product Y" "Furniture" 10 100.
Definition Z0 : Product.t := Product.mk 3 "SKU-Z" "Product Z" "Other" 4 0.
Definition A : Warehouse.t := Warehouse.mk 1 "WH-A" "Warehouse A" "North".
Definition B : Warehouse.t := Warehouse.mk 2 "WH-B" "Warehouse B" "South".

Definition store : Store :=
  mkStore [X; Y; Z0] [A; B]
    [Stock.mk 1 1 1 100 "t0" "t0"; Stock.mk 2 1 2 20 "t0" "t0";
     Stock.mk 3 3 1 5 "t0" "t0"]
    [] [].

Definition transfer (p from to q : jsval) : Transfers.Body :=
  Transfers.mkBody p from to q JUndefined.

Definition act (p : Z) (action : string) : AlertsApi.Body.t :=
  AlertsApi.Body.mk (JNum p) (JStr action) JUndefined.

End Scenario.

(** ** The other branches of the handlers *)

Definition set_products (st : Store) (l : list Product.t) : Store :=
  mkStore l (warehouses st) (stock st) (transfers st) (alerts st).
Definition set_warehouses (st : Store) (l : list Warehouse.t) : Store :=
  mkStore (products st) l (stock st) (transfers st) (alerts st).

(** src/pages/api/stock/[id].js, the GET branch of [handler];
    [id] is [req.query.id]. *)
Module StockItem.

Definition handler_GET (st : Store) (id : jsval) : Response Stock.t :=
  match JS.parseInt (Some 10) id with
  | None => Fail 400 (err "Bad Request" "Invalid stock ID")
  | Some parsedId =>
      match js_find (λ s, Stock.id s = parsedId) (stock st) with
      | Some stockItem => Json 200 stockItem
      | None => Fail 404 (err "Not Found" "Stock item not found")
      end
  end.

End StockItem.

(** src/pages/api/transfers/[id].js *)
Module TransferItem.

(** A transfer with the product and the warehouses it names, where they
    still exist. *)
Record Enriched : Type := mkEnriched {
  transfer : Transfer.t;
  product : option Product.t;
  fromWarehouse : option Warehouse.t;
  toWarehouse : option Warehouse.t
}.

Definition missing (transferId : Z) : ErrorBody :=
  err "Not Found" ("Transfer with ID " +:+ pretty transferId +:+ " does not exist.").

(** The GET branch of [handler]; [id] is [req.query.id]. *)
Definition handler_GET (st : Store) (id : jsval) : Response Enriched :=
  match JS.parseInt (Some 10) id with
  | None => Fail 400 (err "Bad Request" "Invalid transfer ID")
  | Some transferId =>
      match js_find (λ t, Transfer.id t = transferId) (transfers st) with
      | None => Fail 404 (missing transferId)
      | Some transfer =>
          Json 200
            (mkEnriched transfer
               (js_find (λ p, Product.id p = Transfer.productId transfer) (products st))
               (js_find (λ w, Warehouse.id w = Transfer.fromWarehouseId transfer)
                  (warehouses st))
               (js_find (λ w, Warehouse.id w = Transfer.toWarehouseId transfer)
                  (warehouses st)))
      end
  end.

(** The DELETE branch of [handler]: the transfer goes, the stock stays
    as the transfer left it. *)
Definition handler_DELETE (st : Store) (id : jsval)
  : Response Enriched * Store :=
  match JS.parseInt (Some 10) id with
  | None => (Fail 400 (err "Bad Request" "Invalid transfer ID"), st)
  | Some transferId =>
      match list_find (λ t, Transfer.id t = transferId) (transfers st) with
      | None => (Fail 404 (missing transferId), st)
      | Some (transferIndex, _) =>
          (Empty 204, set_transfers st (delete transferIndex (transfers st)))
      end
  end.

End TransferItem.

(** The answer to the DELETE of a product or of a warehouse. *)
Inductive DeleteResponse : Type :=
| Deleted                                               (* 204, no body *)
| Refused (code : Z) (e : ErrorBody)                    (* 400 and 404 *)
| Referenced (message : string) (relatedRecords : nat). (* 409 Conflict *)

(** [cascade === 'true'] on [req.query.cascade] *)
Definition is_true (cascade : jsval) : bool :=
  bool_decide (cascade = JStr "true").

(** src/pages/api/products/[id].js, the GET and DELETE branches *)
Module ProductItem.

Definition referenced_message (n : nat) : string :=
  "Cannot delete product: " +:+ pretty n
    +:+ " stock record(s) reference this product. Use ?cascade=true to delete with related stock records.".

Definition handler_GET (st : Store) (id : jsval) : Response Product.t :=
  match JS.parseInt (Some 10) id with
  | None => Fail 400 (err "Bad Request" "Invalid product ID")
  | Some parsedId =>
      match js_find (λ p, Product.id p = parsedId) (products st) with
      | Some product => Json 200 product
      | None => Fail 404 (err "Not Found" "Product not found")
      end
  end.

Definition handler_DELETE (st : Store) (id cascade : jsval)
  : DeleteResponse * Store :=
  match JS.parseInt (Some 10) id with
  | None => (Refused 400 (err "Bad Request" "Invalid product ID"), st)
  | Some parsedId =>
  let products0 := products st in
  match list_find (λ p, Product.id p = parsedId) products0 with
  | None => (Refused 404 (err "Not Found" "Product not found"), st)
  | Some (index, _) =>
  let stock0 := stock st in
  let relatedStock := filter (λ s, Stock.productId s = parsedId) stock0 in
  if (0 <? length relatedStock)%nat && negb (is_true cascade) then
    (Referenced (referenced_message (length relatedStock)) (length relatedStock), st)
  else
  let st1 :=
    if is_true cascade && (0 <? length relatedStock)%nat
    then set_stock st (filter (λ s, Stock.productId s ≠ parsedId) stock0)
    else st in
  (Deleted, set_products st1 (delete index products0))
  end end.

End ProductItem.

(** src/pages/api/warehouses/[id].js, the GET and DELETE branches *)
Module WarehouseItem.

Definition referenced_message (n : nat) : string :=
  "Cannot delete warehouse: " +:+ pretty n
    +:+ " stock record(s) reference this warehouse. Use ?cascade=true to delete with related stock records.".

Definition handler_GET (st : Store) (id : jsval) : Response Warehouse.t :=
  match JS.parseInt (Some 10) id with
  | None => Fail 400 (err "Bad Request" "Invalid warehouse ID")
  | Some parsedId =>
      match js_find (λ w, Warehouse.id w = parsedId) (warehouses st) with
      | Some warehouse => Json 200 warehouse
      | None => Fail 404 (err "Not Found" "Warehouse not found")
      end
  end.

Definition handler_DELETE (st : Store) (id cascade : jsval)
  : DeleteResponse * Store :=
  match JS.parseInt (Some 10) id with
  | None => (Refused 400 (err "Bad Request" "Invalid warehouse ID"), st)
  | Some parsedId =>
  let warehouses0 := warehouses st in
  match list_find (λ w, Warehouse.id w = parsedId) warehouses0 with
  | None => (Refused 404 (err "Not Found" "Warehouse not found"), st)
  | Some (index, _) =>
  let stock0 := stock st in
  let relatedStock := filter (λ s, Stock.warehouseId s = parsedId) stock0 in
  if (0 <? length relatedStock)%nat && negb (is_true cascade) then
    (Referenced (referenced_message (length relatedStock)) (length relatedStock), st)
  else
  let st1 :=
    if is_true cascade && (0 <? length relatedStock)%nat
    then set_stock st (filter (λ s, Stock.warehouseId s ≠ parsedId) stock0)
    else st in
  (Deleted, set_warehouses st1 (delete index warehouses0))
  end end.

End WarehouseItem.

(** src/pages/api/alerts/[productId].js, the GET branch of [handler];
    [productId] is [req.query.productId]. *)
Module AlertItem.

(** One element of [warehouseBreakdown] *)
Record Breakdown : Type := mkBreakdown {
  warehouseId : Z;
  warehouseName : string;
  warehouseCode : string;
  quantity : Z
}.

Record t : Type := mk {
  productId : Z;
  product : Product.t;
  currentStock : Z;
  stockStatus : StockStatus;
  warehouseBreakdown : list Breakdown;
  acknowledged : bool;
  acknowledgedAt : option string;
  notes : jsval
}.

Definition breakdown (ws : list Warehouse.t) (s : Stock.t) : Breakdown :=
  let warehouse := js_find (λ w, Warehouse.id w = Stock.warehouseId s) ws in
  mkBreakdown (Stock.warehouseId s)
    (AlertsApi.str_or (from_option Warehouse.name "" warehouse) "Unknown")
    (from_option Warehouse.code "" warehouse)
    (Stock.quantity s).

(** The text of [parsedProductId] in the message; [None] is [NaN]. *)
Definition number_text (n : option Z) : string :=
  match n with Some z => pretty z | None => "NaN" end.

Definition handler_GET (st : Store) (productId : jsval) : Response t :=
  let parsedProductId := JS.parseInt (Some 10) productId in
  match parsedProductId
        ≫= λ pid, js_find (λ p, Product.id p = pid) (products st) with
  | None =>
      Fail 404
        (err "Product not found"
           ("Product with ID " +:+ number_text parsedProductId +:+ " does not exist."))
  | Some product =>
      let pid := Product.id product in
      let productStock := filter (λ s, Stock.productId s = pid) (stock st) in
      let totalQuantity := foldl (λ sum s, sum + Stock.quantity s) 0 productStock in
      let stockStatus :=
        AlertApi.getStockStatus totalQuantity (Product.reorderPoint product) in
      let warehouseBreakdown := breakdown (warehouses st) <$> productStock in
      let existingAlert := js_find (λ a, Alert.productId a = pid) (alerts st) in
      Json 200
        (mk pid product totalQuantity stockStatus warehouseBreakdown
           (from_option Alert.acknowledged false existingAlert)
           (AlertsApi.or_null (existingAlert ≫= Alert.acknowledgedAt))
           (JS.or_else (from_option Alert.notes JUndefined existingAlert) (JStr "")))
  end.

End AlertItem.

(** ** Well-formed collections *)

(** The pair a stock record is for. *)
Definition stock_key (s : Stock.t) : Z * Z :=
  (Stock.productId s, Stock.warehouseId s).

(** No two stock records with the same id, nor for the same product and
    warehouse. *)
Definition well_formed_stock (l : list Stock.t) : Prop :=
  NoDup (Stock.id <$> l) ∧ NoDup (stock_key <$> l).


(** ** Reading the listing of alerts *)

(** The fields the break-down of the listing and the one of
    alerts/[productId].js share. *)
Definition shared_breakdown (b : AlertsApi.Breakdown) : Z * string * string * Z :=
  (AlertsApi.warehouseId b, AlertsApi.warehouseName b, AlertsApi.warehouseCode b,
   AlertsApi.quantity b).

Definition item_breakdown (b : AlertItem.Breakdown) : Z * string * string * Z :=
  (AlertItem.warehouseId b, AlertItem.warehouseName b, AlertItem.warehouseCode b,
   AlertItem.quantity b).

(** The order of the listing: no alert comes before a more severe one. *)
Definition by_severity (a b : AlertsApi.ProductAlert.t) : Prop :=
  severity (AlertsApi.ProductAlert.stockStatus b)
  ≤ severity (AlertsApi.ProductAlert.stockStatus a).

(** The five outcomes of the classifier, each with its severity. *)
Definition classified (s : StockStatus) : Prop :=
  (status s = "out" ∧ severity s = 4)
  ∨ (status s = "critical" ∧ severity s = 3)
  ∨ (status s = "low" ∧ severity s = 2)
  ∨ (status s = "adequate" ∧ severity s = 1)
  ∨ (status s = "overstocked" ∧ severity s = 0).


(** The status and severity of a stock level by integer comparisons,
    for a reorder point above zero. *)
Definition level_of (quantity reorderPoint : Z) : string * Z :=
  if quantity =? 0 then ("out", 4)
  else if 2 * quantity <? reorderPoint then ("critical", 3)
  else if quantity <? reorderPoint then ("low", 2)
  else if 3 * reorderPoint <? quantity then ("overstocked", 0)
  else ("adequate", 1).

(** * Properties *)

(** ** Lists and numbers *)

Section numbers.
Lemma Qltb_lt (x y : Q) : JS.Qltb x y = true ↔ (x < y)%Q.
Proof.
  unfold JS.Qltb. rewrite negb_true_iff.
  split.
  - intros H. apply Qnot_le_lt. intros Hle.
    apply Qle_bool_iff in Hle. congruence.
  - intros H. destruct (Qle_bool y x) eqn:E; [|reflexivity].
    apply Qle_bool_iff in E. exfalso. exact (Qlt_not_le _ _ H E).
Qed.
End numbers.

Section list_facts.
Context {A : Type} (P : A → Prop) `{∀ x, Decision (P x)}.

Lemma list_find_alter_key (f : A → A) (l : list A) (i : nat) :
  (∀ x, P (f x) ↔ P x) →
  list_find P (alter f i l)
  = (λ jx, (jx.1, if decide (jx.1 = i) then f jx.2 else jx.2)) <$> list_find P l.
Proof.
  intros Hf. revert i. induction l as [|x l IH]; intros i; [done|].
  destruct i as [|i]; cbn [alter list_alter list_find].
  - destruct (decide (P (f x))) as [Hp|Hp], (decide (P x)) as [Hq|Hq];
      try (exfalso; destruct (Hf x); tauto); [done|].
    destruct (list_find P l) as [[j y]|]; simpl; done.
  - destruct (decide (P x)); [done|].
    change (list_alter f i l) with (alter f i l).
    rewrite IH. destruct (list_find P l) as [[j y]|]; simpl; [|done].
    do 2 f_equal. repeat case_decide; try done; lia.
Qed.

Lemma js_find_Some_Exists (l : list A) (x : A) :
  js_find P l = Some x → Exists P l.
Proof.
  unfold js_find. destruct (list_find P l) as [[i y]|] eqn:Hf; [|done].
  intros [= ->]. apply list_find_Some in Hf as (Hi & Hx & _).
  apply Exists_exists. exists x. split; [|done].
  by eapply list_elem_of_lookup_2.
Qed.

Lemma list_find_insert_same (l : list A) (i : nat) (x y : A) :
  list_find P l = Some (i, x) → P y →
  list_find P (<[i:=y]> l) = Some (i, y).
Proof.
  intros (Hi & Hx & Hmin)%list_find_Some Hy.
  apply list_find_Some. split_and!; [|done|].
  - apply list_lookup_insert_eq. by eapply lookup_lt_Some.
  - intros j z Hj Hlt. rewrite list_lookup_insert_ne in Hj by lia. eauto.
Qed.

Lemma list_find_snoc_None (l : list A) (x : A) :
  list_find P l = None →
  list_find P (l ++ [x]) = if decide (P x) then Some (length l, x) else None.
Proof.
  intros Hn. rewrite list_find_app_r by done. simpl.
  case_decide; simpl; [|done]. do 2 f_equal.
Qed.
End list_facts.

Section ledger.
Implicit Types (l : list Stock.t) (s : Stock.t) (p w d q : Z) (i : nat).

Lemma at_add_quantity p w d now s :
  Stock.at_ p w (Stock.add_quantity d now s) ↔ Stock.at_ p w s.
Proof. done. Qed.







Lemma getQuantity_alter_other p w d now l i s :
  l !! i = Some s → ¬ Stock.at_ p w s →
  getQuantity p w (alter (Stock.add_quantity d now) i l) = getQuantity p w l.
Proof.
  intros Hi Hs. unfold getQuantity.
  rewrite list_find_alter_key by (intros; apply at_add_quantity).
  destruct (list_find _ l) as [[j y]|] eqn:Hf; simpl; [|done].
  case_decide; [|done]. subst j.
  apply list_find_Some in Hf as (Hj & Hy & _). congruence.
Qed.


Lemma getQuantity_snoc_other p w l s :
  ¬ Stock.at_ p w s → getQuantity p w (l ++ [s]) = getQuantity p w l.
Proof.
  intros Hs. unfold getQuantity.
  destruct (list_find _ l) as [[j y]|] eqn:Hf.
  - by rewrite (list_find_app_l _ _ _ _ _ Hf).
  - by rewrite list_find_snoc_None, decide_False.
Qed.
End ledger.

(** * Transfers *)

Section transfers.
Import Transfers.

(** A request either fails and leaves the store as it was, or passes
    every check and writes both files. *)
Lemma handler_POST_cases st b now :
  (∃ code e, handler_POST st b now = (Fail code e, st))
  ∨ (∃ p from to q product fromW toW i s cleaned,
       JS.nullish (productId b) = false
       ∧ JS.nullish (fromWarehouseId b) = false
       ∧ JS.nullish (toWarehouseId b) = false
       ∧ JS.nullish (quantity b) = false
       ∧ JS.parseInt (Some 10) (productId b) = Some p
       ∧ JS.parseInt (Some 10) (fromWarehouseId b) = Some from
       ∧ JS.parseInt (Some 10) (toWarehouseId b) = Some to
       ∧ JS.parseInt (Some 10) (quantity b) = Some q
       ∧ from ≠ to ∧ 0 < q
       ∧ js_find (λ x, Product.id x = p) (products st) = Some product
       ∧ js_find (λ w, Warehouse.id w = from) (warehouses st) = Some fromW
       ∧ js_find (λ w, Warehouse.id w = to) (warehouses st) = Some toW
       ∧ list_find (Stock.at_ p from) (stock st) = Some (i, s)
       ∧ q ≤ Stock.quantity s
       ∧ clean_notes (notes b) = Some cleaned
       ∧ handler_POST st b now
         = (Json 201
              (mkCreated
                 (Transfer.mk (next_id (Transfer.id <$> transfers st)) p from to q
                    cleaned "completed" now)
                 product fromW toW),
            set_transfers (set_stock st (ledger_after (stock st) i p to q now))
              (transfers st
               ++ [Transfer.mk (next_id (Transfer.id <$> transfers st)) p from to q
                     cleaned "completed" now]))).
Proof.
  unfold handler_POST.
  destruct (JS.nullish (productId b)) eqn:E1; [left; eauto|].
  destruct (JS.nullish (fromWarehouseId b)) eqn:E2; [left; eauto|].
  destruct (JS.nullish (toWarehouseId b)) eqn:E3; [left; eauto|].
  destruct (JS.nullish (quantity b)) eqn:E4; [left; eauto|].
  destruct (JS.parseInt (Some 10) (productId b)) as [p|] eqn:P1; [|left; eauto].
  destruct (JS.parseInt (Some 10) (fromWarehouseId b)) as [from|] eqn:P2;
    [|left; eauto].
  destruct (JS.parseInt (Some 10) (toWarehouseId b)) as [to|] eqn:P3;
    [|left; eauto].
  destruct (from =? to) eqn:Eft; [left; eauto|].
  destruct (JS.parseInt (Some 10) (quantity b)) as [q|] eqn:P4; [|left; eauto].
  destruct (q <=? 0) eqn:Eq; [left; eauto|].
  destruct (js_find _ (products st)) as [product|] eqn:F1; [|left; eauto].
  destruct (js_find _ (warehouses st)) as [fromW|] eqn:F2; [|left; eauto].
  destruct (js_find (λ w, Warehouse.id w = to) (warehouses st)) as [toW|] eqn:F3;
    [|left; eauto].
  destruct (list_find _ (stock st)) as [[i s]|] eqn:F4; [|left; eauto].
  destruct (Stock.quantity s <? q) eqn:Es; [left; eauto|].
  destruct (clean_notes (notes b)) as [cleaned|] eqn:N; [|left; eauto].
  right. exists p, from, to, q, product, fromW, toW, i, s, cleaned.
  apply Z.eqb_neq in Eft. apply Z.leb_gt in Eq. apply Z.ltb_ge in Es.
  split_and!; try done.
Qed.






Import TransferChecks.

Lemma first_failed_at st b c n :
  order !! n = Some c →
  Forall (holds st b) (take n order) →
  ¬ holds st b c →
  first_failed st b = Some c.
Proof.
  intros Hn Hpre Hc. unfold first_failed.
  assert (list_find (λ c, ¬ holds st b c) order = Some (n, c)) as ->; [|done].
  apply list_find_Some. split_and!; [done..|].
  intros j y Hj Hlt Hy. apply Hy.
  eapply (Forall_lookup_1 _ _ j y Hpre).
  rewrite lookup_take_lt; done.
Qed.

Lemma first_failed_None st b :
  Forall (holds st b) order → first_failed st b = None.
Proof.
  intros Hall. unfold first_failed.
  assert (list_find (λ c, ¬ holds st b c) order = None) as ->; [|done].
  apply list_find_None. eapply Forall_impl; [exact Hall|]. tauto.
Qed.

Ltac use_equations :=
  unfold failure, holds, num in *;
  simpl;
  repeat match goal with
    | H : ?x = _ |- context [?x] => rewrite H
    end;
  simpl.

Ltac holds_tac :=
  use_equations;
  first [ done
        | by eauto
        | by (eexists; split; [done|lia])
        | by (intros [? ?]; simplify_eq)
        | by (intros (? & ? & ?); simplify_eq; lia)
        | by (intros (? & ? & ? & ? & ?); simplify_eq; lia)
        | by (intros [? ?]; congruence)
        | by (intros [[? ?] ?]; simplify_eq)
        | by (intros [? [? ?]]; simplify_eq)
        | by (do 2 eexists; split_and!; [done..|lia]) ].

Ltac fails_at c n :=
  rewrite (first_failed_at _ _ c n eq_refl);
  [ eexists _, _; split; [use_equations; reflexivity|reflexivity]
  | cbn [take order]; repeat (apply Forall_cons; split); try apply Forall_nil;
    holds_tac
  | holds_tac ].

(** Claim C4 (order of the checks), as the handler has it. The
    handler makes thirteen checks in the order of [order], and answers
    with the error of the first one that fails, writing nothing: the
    four inputs present, each with a message of its own; the product
    id a number; both warehouse ids numbers; the two warehouses
    different; the quantity a number and positive; the product found;
    the source warehouse found; the destination warehouse found; a
    stock record of the source found, else 400 "No stock available"
    with no available quantity; its quantity enough, else 400
    "Insufficient stock" with the available quantity. When every check
    holds the answer is 201, or 500 when the notes are not a string. *)
Theorem transfer_checks_in_order st b now :
  match first_failed st b with
  | Some c =>
      ∃ code e,
        failure st b c = Some (code, e)
        ∧ handler_POST st b now = (Fail code e, st)
  | None =>
      (∃ created st', handler_POST st b now = (Json 201 created, st'))
      ∨ handler_POST st b now = (Fail 500 internal_error, st)
  end.
Proof.
  unfold handler_POST.
  destruct (JS.nullish (productId b)) eqn:E1.
  { fails_at ProductIdPresent 0%nat. }
  destruct (JS.nullish (fromWarehouseId b)) eqn:E2.
  { fails_at SourceIdPresent 1%nat. }
  destruct (JS.nullish (toWarehouseId b)) eqn:E3.
  { fails_at DestinationIdPresent 2%nat. }
  destruct (JS.nullish (quantity b)) eqn:E4.
  { fails_at QuantityPresent 3%nat. }
  destruct (JS.parseInt (Some 10) (productId b)) as [p|] eqn:P1; cycle 1.
  { fails_at ProductIdNumeric 4%nat. }
  destruct (JS.parseInt (Some 10) (fromWarehouseId b)) as [from|] eqn:P2; cycle 1.
  { fails_at WarehouseIdsNumeric 5%nat. }
  destruct (JS.parseInt (Some 10) (toWarehouseId b)) as [to|] eqn:P3; cycle 1.
  { fails_at WarehouseIdsNumeric 5%nat. }
  destruct (from =? to) eqn:Eft.
  { apply Z.eqb_eq in Eft. subst to. fails_at WarehousesDiffer 6%nat. }
  apply Z.eqb_neq in Eft.
  destruct (JS.parseInt (Some 10) (quantity b)) as [q|] eqn:P4; cycle 1.
  { fails_at QuantityPositive 7%nat. }
  destruct (q <=? 0) eqn:Eq.
  { apply Z.leb_le in Eq. fails_at QuantityPositive 7%nat. }
  apply Z.leb_gt in Eq.
  assert (find_product st b = js_find (λ x, Product.id x = p) (products st)) as F1
    by (unfold find_product, num; by rewrite P1).
  assert (find_warehouse st (fromWarehouseId b)
          = js_find (λ w, Warehouse.id w = from) (warehouses st)) as F2
    by (unfold find_warehouse, num; by rewrite P2).
  assert (find_warehouse st (toWarehouseId b)
          = js_find (λ w, Warehouse.id w = to) (warehouses st)) as F3
    by (unfold find_warehouse, num; by rewrite P3).
  assert (find_source_stock st b
          = snd <$> list_find (Stock.at_ p from) (stock st)) as F4
    by (unfold find_source_stock, num; by rewrite P1, P2).
  destruct (js_find _ (products st)) as [product|]; cycle 1.
  { fails_at ProductFound 8%nat. }
  destruct (js_find _ (warehouses st)) as [fromW|]; cycle 1.
  { fails_at SourceFound 9%nat. }
  destruct (js_find (λ w, Warehouse.id w = to) (warehouses st)) as [toW|];
    cycle 1.
  { fails_at DestinationFound 10%nat. }
  destruct (list_find _ (stock st)) as [[i s]|]; simpl in F4; cycle 1.
  { fails_at SourceStockFound 11%nat. }
  destruct (Stock.quantity s <? q) eqn:Es.
  { apply Z.ltb_lt in Es. fails_at SourceStockSufficient 12%nat. }
  apply Z.ltb_ge in Es.
  rewrite first_failed_None.
  - destruct (clean_notes (notes b)); eauto.
  - unfold order. repeat (apply Forall_cons; split); try apply Forall_nil; holds_tac.
Qed.

(** Claim C4, counterexample. With the same warehouse twice and a
    quantity that is no number, the first precondition of the document
    that fails is the first one (well-typed inputs), and the handler
    answers with the error of the second (same warehouse): it reads
    the quantity only after it has compared the warehouses. And where
    the source has no record of the product, the error is not
    "Insufficient stock" and carries no available quantity. *)
Lemma transfer_checks_order_counterexample :
  (TransferSpec.first_failure Scenario.store
     (Scenario.transfer (JNum 1) (JNum 1) (JNum 1) (JStr "abc"))
   = Some TransferSpec.WellTyped
   ∧ handler_POST Scenario.store
       (Scenario.transfer (JNum 1) (JNum 1) (JNum 1) (JStr "abc")) "t1"
     = (Fail 400
          (validation "Source and destination warehouses must be different."),
        Scenario.store)
   ∧ first_failed Scenario.store
       (Scenario.transfer (JNum 1) (JNum 1) (JNum 1) (JStr "abc"))
     = Some WarehousesDiffer
   ∧ precondition_of WarehousesDiffer ≠ TransferSpec.WellTyped)
  ∧ (TransferSpec.first_failure Scenario.store
       (Scenario.transfer (JNum 2) (JNum 1) (JNum 2) (JNum 10))
     = Some TransferSpec.SufficientStock
     ∧ handler_POST Scenario.store
         (Scenario.transfer (JNum 2) (JNum 1) (JNum 2) (JNum 10)) "t1"
       = (Fail 400
            (mkError "No stock available"
               (Some "Product Y is not available at Warehouse A.")
               None None None),
          Scenario.store))
  ∧ ¬ (∀ st b c,
         first_failed st b = Some c →
         TransferSpec.first_failure st b = Some (precondition_of c)).
Proof.
  split_and!; try done.
  intros H.
  specialize (H Scenario.store
                (Scenario.transfer (JNum 1) (JNum 1) (JNum 1) (JStr "abc"))
                WarehousesDiffer eq_refl).
  vm_compute in H. discriminate.
Qed.
End transfers.

(** * Stock never goes negative *)

Section non_negative.
Implicit Types (st : Store) (l : list Stock.t).

Lemma check_quantity_nil v :
  StockApi.check_quantity v = [] →
  ∃ q, JS.parseInt (Some 10) v = Some q ∧ 0 ≤ q.
Proof.
  unfold StockApi.check_quantity.
  destruct (JS.parseInt (Some 10) v) as [q|]; [|done].
  destruct (q <? 0) eqn:E; [done|]. apply Z.ltb_ge in E. eauto.
Qed.

Lemma check_quantity_negative v q :
  JS.parseInt (Some 10) v = Some q → q < 0 →
  JS.nullish v = false ∧ StockApi.is_undefined v = false
  ∧ StockApi.check_quantity v = [StockApi.quantity_message].
Proof.
  intros Hp Hq. unfold StockApi.check_quantity. rewrite Hp.
  apply Z.ltb_lt in Hq. rewrite Hq.
  destruct v; try done; vm_compute in Hp; discriminate.
Qed.

Lemma no_errors (errors : list string) :
  (0 <? length errors)%nat = false → errors = [].
Proof. destruct errors; [done|]. simpl. discriminate. Qed.

Lemma some_errors (errors : list string) (m : string) :
  m ∈ errors → (0 <? length errors)%nat = true.
Proof. destruct errors; [by intros ?%elem_of_nil|done]. Qed.

Lemma create_non_negative st b now :
  non_negative (stock st) →
  non_negative (stock (StockApi.handler_POST st b now).2).
Proof.
  intros Hst. unfold StockApi.handler_POST.
  destruct (0 <? length _)%nat eqn:E; [done|].
  apply no_errors in E. unfold StockApi.validateStock in E.
  apply app_eq_nil in E as [_ [_ E]%app_eq_nil].
  destruct (JS.nullish (StockApi.quantity b)); [done|].
  apply check_quantity_nil in E as (q & Hq & Hpos). rewrite Hq.
  repeat case_match; try done; simplify_eq; simpl.
  all: apply Forall_app; split; [done|]; by apply Forall_singleton.
Qed.

Lemma update_non_negative st id b now :
  non_negative (stock st) →
  non_negative (stock (StockApi.handler_PUT st id b now).2).
Proof.
  intros Hst. unfold StockApi.handler_PUT.
  destruct (JS.parseInt (Some 10) id) as [parsedId|]; [|done].
  destruct (list_find _ (stock st)) as [[index old]|] eqn:Hfind; [|done].
  apply list_find_Some in Hfind as (Hold & _ & _).
  pose proof (Forall_lookup_1 _ _ _ _ Hst Hold) as Hq. simpl in Hq.
  destruct (0 <? length _)%nat eqn:E; [done|].
  apply no_errors in E. unfold StockApi.validateStockUpdate in E.
  apply app_eq_nil in E as [_ [_ E]%app_eq_nil].
  assert (∃ q, (if StockApi.is_undefined (StockApi.quantity b)
                then Some (Stock.quantity old)
                else JS.parseInt (Some 10) (StockApi.quantity b)) = Some q
               ∧ 0 ≤ q) as (q & -> & Hpos).
  { destruct (StockApi.is_undefined (StockApi.quantity b)); [eauto|].
    by apply check_quantity_nil. }
  repeat case_match; try done; simplify_eq; simpl.
  all: by apply Forall_insert.
Qed.

Lemma delete_non_negative st id :
  non_negative (stock st) →
  non_negative (stock (StockApi.handler_DELETE st id).2).
Proof.
  intros Hst. unfold StockApi.handler_DELETE.
  repeat case_match; try done; simplify_eq; simpl.
  all: by apply Forall_delete.
Qed.

Lemma ledger_after_non_negative l i s p to q now :
  non_negative l → l !! i = Some s → 0 < q → q ≤ Stock.quantity s →
  non_negative (ledger_after l i p to q now).
Proof.
  intros Hl Hi Hq Hle. unfold ledger_after.
  assert (non_negative (alter (Stock.add_quantity (- q) now) i l)) as Hl1.
  { apply Forall_alter; [done|]. intros x Hx _. simplify_eq. simpl. lia. }
  destruct (list_find _ _) as [[j y]|].
  - apply Forall_alter; [done|]. intros x _ Hx. simpl in *. lia.
  - apply Forall_app. split; [done|]. apply Forall_singleton. simpl. lia.
Qed.

Lemma transfer_non_negative st b now :
  non_negative (stock st) →
  non_negative (stock (Transfers.handler_POST st b now).2).
Proof.
  intros Hst.
  destruct (handler_POST_cases st b now) as [(code & e & ->)|Hok]; [done|].
  destruct Hok as (p & from & to & q & product & fromW & toW & i & s & cleaned
                   & _ & _ & _ & _ & _ & _ & _ & _ & _ & Hq & _ & _ & _
                   & Hsrc & Hle & _ & ->).
  simpl. apply list_find_Some in Hsrc as (Hi & _ & _).
  by eapply ledger_after_non_negative.
Qed.

Lemma create_rejects_negative st b now q :
  JS.parseInt (Some 10) (StockApi.quantity b) = Some q → q < 0 →
  ∃ errors,
    StockApi.handler_POST st b now = (Fail 400 (StockApi.validation errors), st)
    ∧ StockApi.quantity_message ∈ errors.
Proof.
  intros Hp Hq. destruct (check_quantity_negative _ _ Hp Hq) as (Hn & _ & Hc).
  exists (StockApi.validateStock b (products st) (warehouses st)).
  assert (StockApi.quantity_message
            ∈ StockApi.validateStock b (products st) (warehouses st)) as Hin.
  { unfold StockApi.validateStock. rewrite Hn, Hc.
    rewrite !elem_of_app. right; right. apply list_elem_of_singleton. done. }
  split; [|done]. unfold StockApi.handler_POST.
  by rewrite (some_errors _ _ Hin).
Qed.

Lemma update_rejects_negative st id b now q parsedId :
  JS.parseInt (Some 10) (StockApi.quantity b) = Some q → q < 0 →
  JS.parseInt (Some 10) id = Some parsedId →
  Exists (λ s, Stock.id s = parsedId) (stock st) →
  ∃ errors,
    StockApi.handler_PUT st id b now = (Fail 400 (StockApi.validation errors), st)
    ∧ StockApi.quantity_message ∈ errors.
Proof.
  intros Hp Hq Hid Hex.
  destruct (check_quantity_negative _ _ Hp Hq) as (_ & Hu & Hc).
  exists (StockApi.validateStockUpdate b (products st) (warehouses st)).
  assert (StockApi.quantity_message
            ∈ StockApi.validateStockUpdate b (products st) (warehouses st)) as Hin.
  { unfold StockApi.validateStockUpdate. rewrite Hu, Hc.
    rewrite !elem_of_app. right; right. apply list_elem_of_singleton. done. }
  split; [|done]. unfold StockApi.handler_PUT. rewrite Hid.
  destruct (list_find _ (stock st)) as [[index old]|] eqn:Hfind.
  - by rewrite (some_errors _ _ Hin).
  - exfalso. apply list_find_None in Hfind.
    apply Exists_exists in Hex as (x & Hx & Hxid).
    by eapply (proj1 (Forall_forall _ _) Hfind x).
Qed.

Lemma transfer_rejects_excess st b now p from to q product fromW toW i s :
  JS.nullish (Transfers.productId b) = false →
  JS.nullish (Transfers.fromWarehouseId b) = false →
  JS.nullish (Transfers.toWarehouseId b) = false →
  JS.nullish (Transfers.quantity b) = false →
  JS.parseInt (Some 10) (Transfers.productId b) = Some p →
  JS.parseInt (Some 10) (Transfers.fromWarehouseId b) = Some from →
  JS.parseInt (Some 10) (Transfers.toWarehouseId b) = Some to →
  JS.parseInt (Some 10) (Transfers.quantity b) = Some q →
  from ≠ to → 0 < q →
  js_find (λ x, Product.id x = p) (products st) = Some product →
  js_find (λ w, Warehouse.id w = from) (warehouses st) = Some fromW →
  js_find (λ w, Warehouse.id w = to) (warehouses st) = Some toW →
  list_find (Stock.at_ p from) (stock st) = Some (i, s) →
  Stock.quantity s < q →
  Transfers.handler_POST st b now
  = (Fail 400 (Transfers.insufficient (Stock.quantity s) fromW q), st).
Proof.
  intros N1 N2 N3 N4 P1 P2 P3 P4 Hne Hq F1 F2 F3 F4 Hlt.
  unfold Transfers.handler_POST.
  rewrite N1, N2, N3, N4, P1, P2, P3, P4.
  apply Z.eqb_neq in Hne. rewrite Hne.
  apply Z.leb_gt in Hq. rewrite Hq.
  rewrite F1, F2, F3, F4.
  apply Z.ltb_lt in Hlt. by rewrite Hlt.
Qed.

(** Claim C5 (non-negativity). From a store where no stock record has
    a negative quantity, creating a stock record, updating one,
    deleting one and transferring stock each leave a store where none
    has. Creation and update answer a quantity that reads as a
    negative number with 400 "Validation failed", "Quantity must be a
    non-negative integer" among the details, and write nothing; a
    transfer of more than the source record holds answers 400
    "Insufficient stock" with the available quantity and writes
    nothing. *)
Theorem stock_quantities_never_negative st now :
  non_negative (stock st) →
  ((∀ b, non_negative (stock (StockApi.handler_POST st b now).2))
   ∧ (∀ id b, non_negative (stock (StockApi.handler_PUT st id b now).2))
   ∧ (∀ id, non_negative (stock (StockApi.handler_DELETE st id).2))
   ∧ (∀ b, non_negative (stock (Transfers.handler_POST st b now).2)))
  ∧ (∀ b q,
       JS.parseInt (Some 10) (StockApi.quantity b) = Some q → q < 0 →
       ∃ errors,
         StockApi.handler_POST st b now = (Fail 400 (StockApi.validation errors), st)
         ∧ StockApi.quantity_message ∈ errors)
  ∧ (∀ id b q parsedId,
       JS.parseInt (Some 10) (StockApi.quantity b) = Some q → q < 0 →
       JS.parseInt (Some 10) id = Some parsedId →
       Exists (λ s, Stock.id s = parsedId) (stock st) →
       ∃ errors,
         StockApi.handler_PUT st id b now = (Fail 400 (StockApi.validation errors), st)
         ∧ StockApi.quantity_message ∈ errors)
  ∧ (∀ b p from to q product fromW toW i s,
       JS.nullish (Transfers.productId b) = false →
       JS.nullish (Transfers.fromWarehouseId b) = false →
       JS.nullish (Transfers.toWarehouseId b) = false →
       JS.nullish (Transfers.quantity b) = false →
       JS.parseInt (Some 10) (Transfers.productId b) = Some p →
       JS.parseInt (Some 10) (Transfers.fromWarehouseId b) = Some from →
       JS.parseInt (Some 10) (Transfers.toWarehouseId b) = Some to →
       JS.parseInt (Some 10) (Transfers.quantity b) = Some q →
       from ≠ to → 0 < q →
       js_find (λ x, Product.id x = p) (products st) = Some product →
       js_find (λ w, Warehouse.id w = from) (warehouses st) = Some fromW →
       js_find (λ w, Warehouse.id w = to) (warehouses st) = Some toW →
       list_find (Stock.at_ p from) (stock st) = Some (i, s) →
       Stock.quantity s < q →
       Transfers.handler_POST st b now
       = (Fail 400 (Transfers.insufficient (Stock.quantity s) fromW q), st)
       ∧ available (Transfers.insufficient (Stock.quantity s) fromW q)
         = Some (Stock.quantity s)).
Proof.
  intros Hst. split_and!.
  - intros b. by apply create_non_negative.
  - intros id b. by apply update_non_negative.
  - intros id. by apply delete_non_negative.
  - intros b. by apply transfer_non_negative.
  - intros b q. apply create_rejects_negative.
  - intros id b q parsedId. apply update_rejects_negative.
  - intros. split; [|done]. by eapply transfer_rejects_excess.
Qed.

Lemma stock_quantities_never_negative_witness :
  non_negative (stock Scenario.store)
  ∧ non_negative
      (stock (Transfers.handler_POST Scenario.store
                (Scenario.transfer (JNum 1) (JNum 1) (JNum 2) (JNum 100)) "t1").2)
  ∧ ∃ errors,
      StockApi.handler_POST Scenario.store
        (StockApi.mkBody (JNum 2) (JNum 1) (JNum (-5))) "t1"
      = (Fail 400 (StockApi.validation errors), Scenario.store)
      ∧ StockApi.quantity_message ∈ errors.
Proof.
  assert (non_negative (stock Scenario.store)) as Hst.
  { repeat apply Forall_cons_2; [simpl; lia..|apply Forall_nil_2]. }
  destruct (stock_quantities_never_negative Scenario.store "t1" Hst)
    as ((_ & _ & _ & Htransfer) & Hcreate & _).
  split_and!; [exact Hst|apply Htransfer|].
  apply (Hcreate (StockApi.mkBody (JNum 2) (JNum 1) (JNum (-5))) (-5));
    [reflexivity|lia].
Defined.
End non_negative.

(** * Stock status and reorder recommendation *)

Section classifier.

Lemma div_by_zero (q : Z) :
  0 ≤ q → JS.div q 0 = if q =? 0 then NaN else Inf false.
Proof.
  intros Hq. unfold JS.div. simpl.
  destruct (q =? 0) eqn:E; [done|].
  apply Z.eqb_neq in E. by rewrite (proj2 (Z.ltb_ge q 0)) by lia.
Qed.

(** Claim C3 (reorder point zero), as the code has it. For every
    quantity [q ≥ 0], each of the three copies of [getStockStatus]
    returns, for a reorder point of zero, the status "overstocked"
    with severity 0 when [q > 0] (the ratio is [Infinity]) and the
    status "adequate" with severity 1 when [q = 0] (the ratio is
    [NaN]). *)
Theorem getStockStatus_zero_reorderPoint (q : Z) :
  0 ≤ q →
  (0 < q →
     Helpers.getStockStatus q 0
     = mkStockStatus "overstocked" "Overstocked" "info" 0 None
     ∧ AlertsApi.getStockStatus q 0
       = mkStockStatus "overstocked" "Overstocked" "info" 0 (Some "low")
     ∧ AlertApi.getStockStatus q 0
       = mkStockStatus "overstocked" "Overstocked" "info" 0 (Some "low"))
  ∧ (q = 0 →
       Helpers.getStockStatus q 0
       = mkStockStatus "adequate" "Adequate" "success" 1 None
       ∧ AlertsApi.getStockStatus q 0
         = mkStockStatus "adequate" "Adequate" "success" 1 (Some "none")
       ∧ AlertApi.getStockStatus q 0
         = mkStockStatus "adequate" "Adequate" "success" 1 (Some "none")).
Proof.
  intros Hq.
  unfold Helpers.getStockStatus, AlertsApi.getStockStatus, AlertApi.getStockStatus.
  rewrite div_by_zero by done.
  split.
  - intros Hpos. rewrite (proj2 (Z.eqb_neq q 0)) by lia. done.
  - intros ->. done.
Qed.

Lemma getStockStatus_zero_reorderPoint_witness :
  0 ≤ 5
  ∧ status (Helpers.getStockStatus 5 0) = "overstocked"
  ∧ status (AlertsApi.getStockStatus 5 0) = "overstocked".
Proof.
  split; [lia|].
  destruct (getStockStatus_zero_reorderPoint 5 ltac:(lia)) as [Hpos _].
  destruct (Hpos ltac:(lia)) as (-> & -> & _). done.
Defined.

(** Claim C3, counterexample. With a reorder point of zero the
    classifier returns "overstocked" for a quantity of 5, where the
    document says ADEQUATE, and "adequate" with severity 1 for a
    quantity of 0, where the document says OUT with severity 4. *)
Lemma getStockStatus_zero_reorderPoint_counterexample :
  status (Helpers.getStockStatus 5 0) = "overstocked"
  ∧ status (Helpers.getStockStatus 0 0) = "adequate"
  ∧ severity (Helpers.getStockStatus 0 0) = 1
  ∧ ¬ (∀ q, 0 ≤ q →
         (0 < q → status (Helpers.getStockStatus q 0) = "adequate")
         ∧ (q = 0 → status (Helpers.getStockStatus q 0) = "out"
                    ∧ severity (Helpers.getStockStatus q 0) = 4)).
Proof.
  split_and!; [done..|].
  intros H. destruct (H 5 ltac:(lia)) as [H5 _].
  specialize (H5 ltac:(lia)). vm_compute in H5. discriminate.
Qed.

(** Claim C7 (one classification). For every quantity [≥ 0] and
    reorder point [> 0], the classifier of utils/helpers.js and the
    one of the alerts API return the same status, label and severity,
    and the copy of alerts/[productId].js is the one of
    alerts/index.js; for quantity 30 and reorder point 100 each of
    the three returns "critical", and the bar of the products page
    has the colour of that status. *)
Theorem getStockStatus_same_in_every_copy (quantity reorderPoint : Z) :
  0 ≤ quantity → 0 < reorderPoint →
  (status (Helpers.getStockStatus quantity reorderPoint)
   = status (AlertsApi.getStockStatus quantity reorderPoint)
   ∧ label (Helpers.getStockStatus quantity reorderPoint)
     = label (AlertsApi.getStockStatus quantity reorderPoint)
   ∧ severity (Helpers.getStockStatus quantity reorderPoint)
     = severity (AlertsApi.getStockStatus quantity reorderPoint))
  ∧ AlertApi.getStockStatus quantity reorderPoint
    = AlertsApi.getStockStatus quantity reorderPoint
  ∧ status (Helpers.getStockStatus 30 100) = "critical"
  ∧ status (AlertsApi.getStockStatus 30 100) = "critical"
  ∧ status (AlertApi.getStockStatus 30 100) = "critical"
  ∧ ProductsPage.getStockStatusColor (ProductsPage.stockPercentage 30 100)
    = color (Helpers.getStockStatus 30 100).
Proof.
  intros _ _.
  unfold Helpers.getStockStatus, AlertsApi.getStockStatus, AlertApi.getStockStatus.
  split_and!; try done; repeat case_match; done.
Qed.

Lemma getStockStatus_same_in_every_copy_witness :
  status (Helpers.getStockStatus 30 100)
  = status (AlertsApi.getStockStatus 30 100).
Proof.
  destruct (getStockStatus_same_in_every_copy 30 100 ltac:(lia) ltac:(lia))
    as ((H & _ & _) & _).
  exact H.
Defined.



End classifier.

(** * Alerts *)

Section alerts.
Import AlertsApi.

Lemma insert_by_severity_length a l :
  length (insert_by_severity a l) = S (length l).
Proof.
  induction l as [|b l IH]; simpl; [done|].
  case_match; simpl; [by rewrite IH|done].
Qed.

Lemma sort_by_severity_length l :
  length (sort_by_severity l) = length l.
Proof.
  induction l as [|a l IH]; simpl; [done|].
  by rewrite insert_by_severity_length, IH.
Qed.

(** Claim C10 (summary over all products). Whatever the status,
    category and acknowledged filters of the request, the summary of
    the listing is computed over the alerts of all products, not over
    the filtered ones: it is the summary of the listing without
    filters, its total is the number of products, and any two requests
    on the same store get the same summary. *)
Theorem summary_ignores_filters st q now :
  ∃ listing all,
    handler_GET st q now = Json 200 listing
    ∧ handler_GET st no_filter now = Json 200 all
    ∧ summary listing = summarize (alerts_of all)
    ∧ summary listing = summary all
    ∧ total (summary listing) = length (products st)
    ∧ length (alerts_of all) = length (products st)
    ∧ (∀ q', ∃ listing',
         handler_GET st q' now = Json 200 listing'
         ∧ summary listing' = summary listing).
Proof.
  unfold handler_GET. eexists _, _. split_and!; try done.
  - simpl. by rewrite sort_by_severity_length, length_fmap.
  - simpl. by rewrite sort_by_severity_length, length_fmap.
  - intros q'. by eexists.
Qed.

Lemma apply_action_valid a notes now x :
  a ∈ valid_actions → is_Some (apply_action (JStr a) notes now x).
Proof.
  intros Ha. unfold valid_actions in Ha.
  repeat (apply elem_of_cons in Ha as [->|Ha]); [..|by apply elem_of_nil in Ha];
    destruct x; by eexists.
Qed.

Lemma apply_action_unknown action notes now x :
  (∀ a, a ∈ valid_actions → action ≠ JStr a) →
  apply_action action notes now x = None.
Proof.
  intros Hno. unfold apply_action. destruct x.
  repeat case_decide; try done; exfalso;
    (eapply Hno; [|eassumption]); unfold valid_actions;
    repeat first [ apply list_elem_of_here | apply list_elem_of_further ].
Qed.

Lemma apply_action_productId action notes now x y :
  apply_action action notes now x = Some y →
  Alert.productId (touch now y) = Alert.productId x.
Proof.
  unfold apply_action. destruct x.
  repeat case_decide; intros [= <-]; done.
Qed.

Lemma apply_action_untimed action notes n1 n2 x y x' y' :
  untimed x = untimed y →
  apply_action action notes n1 x = Some x' →
  apply_action action notes n2 y = Some y' →
  untimed (touch n2 y') = untimed (touch n1 x').
Proof.
  unfold apply_action, untimed. destruct x, y. simpl. intros [= -> -> -> -> -> ->].
  repeat case_decide; intros [= <-] [= <-]; done.
Qed.

Lemma apply_action_again action notes n1 n2 x x' x'' :
  apply_action action notes n1 x = Some x' →
  apply_action action notes n2 (touch n1 x') = Some x'' →
  untimed (touch n2 x'') = untimed (touch n1 x').
Proof.
  unfold apply_action, untimed. destruct x.
  repeat case_decide; intros [= <-]; simpl;
    repeat case_decide; try done; intros [= <-]; done.
Qed.

Lemma insert_last {B} (l : list B) (x y : B) :
  <[length l := y]> (l ++ [x]) = l ++ [y].
Proof. rewrite insert_app_r_alt by lia. by rewrite Nat.sub_diag. Qed.

Lemma handler_POST_present st b now w pid product :
  JS.truthy (Body.productId b) = true →
  JS.parseInt None (Body.productId b) = Some pid →
  js_find (λ p, Product.id p = pid) (products st) = Some product →
  handler_POST st b now w
  = match apply_action (Body.action b) (Body.notes b) now
            (located (alerts st) pid now).2 with
    | None => (Fail 400 invalid_action, st)
    | Some changed =>
        (Json 200
           (Updated.mk true (touch now changed) w
              (if w then "Alert updated successfully"
               else "Alert updated for this session (changes not persisted on serverless deployment)")),
         if w then
           set_alerts st
             (<[(located (alerts st) pid now).1.2 := touch now changed]>
                (located (alerts st) pid now).1.1)
         else st)
    end.
Proof.
  intros Ht Hp Hf. unfold handler_POST, located. rewrite Ht, Hp, Hf. simpl.
  destruct (list_find _ (alerts st)) as [[i a]|]; done.
Qed.

(** After a write, the record of the product is found where it was put,
    and putting an equal record there again changes nothing but the
    time stamps. *)
Lemma located_productId records pid now :
  Alert.productId (located records pid now).2 = pid.
Proof.
  unfold located.
  destruct (list_find _ records) as [[i a]|] eqn:Hfind; simpl; [|done].
  by apply list_find_Some in Hfind as (_ & Ha & _).
Qed.

Lemma located_after_write records pid n1 n2 x :
  Alert.productId x = pid →
  let records' :=
    <[(located records pid n1).1.2 := x]> (located records pid n1).1.1 in
  located records' pid n2 = (records', (located records pid n1).1.2, x)
  ∧ ∀ y, untimed y = untimed x →
         untimed <$> <[(located records pid n1).1.2 := y]> records'
         = untimed <$> records'.
Proof.
  intros Hx. unfold located.
  destruct (list_find _ records) as [[i a]|] eqn:Hfind; simpl.
  - split.
    + by rewrite (list_find_insert_same _ _ _ a x Hfind Hx).
    + intros y Hy. by rewrite list_insert_insert_eq, !list_fmap_insert, Hy.
  - rewrite insert_last. split.
    + rewrite list_find_snoc_None by done. by rewrite decide_True.
    + intros y Hy. rewrite insert_last, !fmap_app. simpl. by rewrite Hy.
Qed.

Lemma located_untimed records pid n1 n2 :
  untimed (located records pid n1).2 = untimed (located records pid n2).2.
Proof.
  unfold located. destruct (list_find _ records) as [[i a]|]; done.
Qed.

(** Claim C8 (idempotent actions). For every product of the store and
    every action among acknowledge, unacknowledge, dismiss, undismiss
    and update_notes, a second request with the same body, made on the
    store the first one left, answers 200 like the first, with an
    alert record equal to the first one's in every field but the time
    stamps, and leaves the alert array as it was, time stamps
    apart. *)
Theorem alert_action_idempotent st b now1 now2 w pid product a :
  a ∈ valid_actions → Body.action b = JStr a →
  JS.truthy (Body.productId b) = true →
  JS.parseInt None (Body.productId b) = Some pid →
  js_find (λ p, Product.id p = pid) (products st) = Some product →
  ∃ once st1 twice st2,
    handler_POST st b now1 w = (Json 200 once, st1)
    ∧ handler_POST st1 b now2 w = (Json 200 twice, st2)
    ∧ Alert.productId (Updated.alert once) = pid
    ∧ untimed (Updated.alert twice) = untimed (Updated.alert once)
    ∧ untimed <$> alerts st2 = untimed <$> alerts st1.
Proof.
  intros Ha Hact Ht Hp Hf.
  rewrite (handler_POST_present st b now1 w pid product Ht Hp Hf), Hact.
  destruct (apply_action_valid a (Body.notes b) now1 (located (alerts st) pid now1).2 Ha)
    as [x1 Hx1].
  rewrite Hx1.
  pose proof (apply_action_productId _ _ _ _ _ Hx1) as Hpid1.
  rewrite located_productId in Hpid1.
  destruct (located_after_write (alerts st) pid now1 now2 (touch now1 x1) Hpid1)
    as (Hloc & Hins).
  destruct (apply_action_valid a (Body.notes b) now2 (touch now1 x1) Ha)
    as [x2 Hx2].
  destruct (apply_action_valid a (Body.notes b) now2
              (located (alerts st) pid now2).2 Ha) as [y2 Hy2].
  destruct w.
  - eexists _, _, _, _. split; [reflexivity|].
    match goal with
    | |- context [handler_POST ?s b now2 true] =>
        rewrite (handler_POST_present s b now2 true pid product Ht Hp Hf), Hact
    end.
    change (alerts (set_alerts st ?l)) with l.
    cbv zeta in Hloc. rewrite Hloc. cbn [fst snd].
    rewrite Hx2. split; [reflexivity|]. split_and!; simpl.
    + done.
    + by eapply apply_action_again.
    + apply Hins. by eapply apply_action_again.
  - eexists _, _, _, _. split; [reflexivity|].
    rewrite (handler_POST_present st b now2 false pid product Ht Hp Hf), Hact.
    rewrite Hy2. split; [reflexivity|]. split_and!; simpl.
    + done.
    + eapply apply_action_untimed; [|done..]. apply located_untimed.
    + done.
Qed.

Lemma alert_action_idempotent_witness :
  ∃ once st1 twice st2,
    handler_POST Scenario.store (Scenario.act 1 "acknowledge") "t1" true
    = (Json 200 once, st1)
    ∧ handler_POST st1 (Scenario.act 1 "acknowledge") "t2" true
      = (Json 200 twice, st2)
    ∧ untimed (Updated.alert twice) = untimed (Updated.alert once)
    ∧ untimed <$> alerts st2 = untimed <$> alerts st1.
Proof.
  destruct (alert_action_idempotent Scenario.store
              (Scenario.act 1 "acknowledge") "t1" "t2" true 1 Scenario.X
              "acknowledge")
    as (once & st1 & twice & st2 & H1 & H2 & _ & H3 & H4);
    [apply list_elem_of_here|reflexivity..|].
  exists once, st1, twice, st2. split_and!; assumption.
Defined.

(** Claim C9 (unknown action). For every action that is none of
    acknowledge, unacknowledge, dismiss, undismiss and update_notes,
    the request fails and the persisted store is the one it read, so
    no record created for the product is kept; and on a product of the
    store the answer is 400 "Invalid action" with the message that
    lists the five valid actions. *)
Theorem unknown_action_rejected st b now w :
  (∀ a, a ∈ valid_actions → Body.action b ≠ JStr a) →
  (∃ code e, handler_POST st b now w = (Fail code e, st))
  ∧ (∀ pid product,
       JS.truthy (Body.productId b) = true →
       JS.parseInt None (Body.productId b) = Some pid →
       js_find (λ p, Product.id p = pid) (products st) = Some product →
       handler_POST st b now w = (Fail 400 invalid_action, st))
  ∧ error invalid_action = "Invalid action"
  ∧ message invalid_action
    = Some ("Valid actions are: " +:+ String.concat ", " valid_actions).
Proof.
  intros Hno.
  assert (∀ pid product,
       JS.truthy (Body.productId b) = true →
       JS.parseInt None (Body.productId b) = Some pid →
       js_find (λ p, Product.id p = pid) (products st) = Some product →
       handler_POST st b now w = (Fail 400 invalid_action, st)) as Hpresent.
  { intros pid product Ht Hp Hf.
    rewrite (handler_POST_present st b now w pid product Ht Hp Hf).
    by rewrite apply_action_unknown. }
  split_and!; [|done..].
  destruct (JS.truthy (Body.productId b)) eqn:Ht; cycle 1.
  { unfold handler_POST. rewrite Ht. simpl. eauto. }
  destruct (JS.parseInt None (Body.productId b)) as [pid|] eqn:Hp; cycle 1.
  { unfold handler_POST. rewrite Ht, Hp. simpl. eauto. }
  destruct (js_find (λ p, Product.id p = pid) (products st)) as [product|] eqn:Hf;
    cycle 1.
  { unfold handler_POST. rewrite Ht, Hp, Hf. simpl. eauto. }
  rewrite (Hpresent pid product) by done. eauto.
Qed.

Lemma unknown_action_rejected_witness :
  handler_POST Scenario.store (Scenario.act 1 "archive") "t1" true
  = (Fail 400 invalid_action, Scenario.store).
Proof.
  assert (∀ a, a ∈ valid_actions → JStr "archive" ≠ JStr a) as Hno.
  { intros a Ha. unfold valid_actions in Ha.
    repeat (apply elem_of_cons in Ha as [->|Ha]); [discriminate..|].
    by apply elem_of_nil in Ha. }
  destruct (unknown_action_rejected Scenario.store
              (Scenario.act 1 "archive") "t1" true Hno) as (_ & H & _).
  exact (H 1 Scenario.X eq_refl eq_refl eq_refl).
Defined.
End alerts.

(** ** The scenarios of the design document *)

Section scenarios.
Import Scenario.

(** 1. 100 at A and 20 at B; 50 from A to B leaves 50 and 70 and one
    transfer of 50. *)
Example scenario_transfer :
  let r := Transfers.handler_POST store (transfer (JNum 1) (JNum 1) (JNum 2) (JNum 50)) "t1" in
  http_status r.1 = 201
  ∧ Stock.quantity <$> stock r.2 = [50; 70; 5]
  ∧ Transfer.quantity <$> transfers r.2 = [50].
Proof. done. Qed.

(** 2. 150 from A, which holds 100: insufficient stock, available 100,
    nothing changes. *)
Example scenario_insufficient :
  Transfers.handler_POST store (transfer (JNum 1) (JNum 1) (JNum 2) (JNum 150)) "t1"
  = (Fail 400
       (mkError "Insufficient stock"
          (Some "Only 100 units available at Warehouse A. Cannot transfer 150 units.")
          None (Some 100) None),
     store).
Proof. done. Qed.

(** 3. Reorder point 100, quantity 0: out of stock, severity 4; order
    200, critical. *)
Example scenario_out_of_stock :
  status (AlertsApi.getStockStatus 0 100) = "out"
  ∧ severity (AlertsApi.getStockStatus 0 100) = 4
  ∧ AlertsApi.recommendedQuantity <$> AlertsApi.getReorderRecommendation 0 100 10
    = Some 200
  ∧ AlertsApi.urgency <$> AlertsApi.getReorderRecommendation 0 100 10
    = Some "critical".
Proof. done. Qed.

(** 5. acknowledge, then unacknowledge *)
Example scenario_unacknowledge :
  let r1 := AlertsApi.handler_POST store (act 1 "acknowledge") "t1" true in
  let r2 := AlertsApi.handler_POST r1.2 (act 1 "unacknowledge") "t2" true in
  alerts r2.2
  = [Alert.mk 1 1 false None None false None (JStr "") "t1" (Some "t2")].
Proof. done. Qed.

(** 6. From A to A: validation error, nothing changes. *)
Example scenario_same_warehouse :
  Transfers.handler_POST store (transfer (JNum 1) (JNum 1) (JNum 1) (JNum 10)) "t1"
  = (Fail 400
       (Transfers.validation "Source and destination warehouses must be different."),
     store).
Proof. done. Qed.

(** A status filter shortens the list of alerts and not the summary. *)
Example scenario_filtered_listing :
  ∃ listing,
    AlertsApi.handler_GET store
      (AlertsApi.Query.mk (Some "out,critical") None None) "t1"
    = Json 200 listing
    ∧ AlertsApi.ProductAlert.productId <$> AlertsApi.alerts_of listing = [2]
    ∧ AlertsApi.total (AlertsApi.summary listing) = 3%nat
    ∧ AlertsApi.critical (AlertsApi.summary listing) = 1%nat
    ∧ AlertsApi.adequate (AlertsApi.summary listing) = 1%nat
    ∧ AlertsApi.overstocked (AlertsApi.summary listing) = 1%nat.
Proof. eexists. split; [reflexivity|]. done. Qed.

(** [parseInt] reads a leading number and stops at the first other
    character. *)
Example parseInt_examples :
  JS.parseInt (Some 10) (JStr "  -12abc") = Some (-12)
  ∧ JS.parseInt (Some 10) (JStr "7.5") = Some 7
  ∧ JS.parseInt (Some 10) (JStr "0x1A") = Some 0
  ∧ JS.parseInt None (JStr "0x1A") = Some 26
  ∧ JS.parseInt (Some 10) (JStr "abc") = None
  ∧ JS.parseInt (Some 10) JNull = None
  ∧ JS.parseInt (Some 10) (JStr "-") = None.
Proof. done. Qed.
End scenarios.

(** * Further properties of the handlers *)

(** ** Fresh identifiers and lists without duplicates *)

Section fresh.

Lemma foldl_max_lower (l : list Z) (a : Z) : a ≤ foldl Z.max a l.
Proof.
  revert a. induction l as [|y l IH]; intros a; simpl; [lia|].
  specialize (IH (Z.max a y)). lia.
Qed.

Lemma foldl_max_upper (l : list Z) (a x : Z) : x ∈ l → x ≤ foldl Z.max a l.
Proof.
  revert a. induction l as [|y l IH]; intros a Hx; [by apply elem_of_nil in Hx|].
  simpl. apply elem_of_cons in Hx as [->|Hx].
  - pose proof (foldl_max_lower l (Z.max a y)). lia.
  - by apply IH.
Qed.

Lemma next_id_fresh (ids : list Z) (x : Z) : x ∈ ids → x < next_id ids.
Proof.
  destruct ids as [|y l]; [by intros ?%elem_of_nil|].
  simpl. intros [->|Hx]%elem_of_cons.
  - pose proof (foldl_max_lower l y). lia.
  - pose proof (foldl_max_upper l y x Hx). lia.
Qed.

Lemma next_id_not_in (ids : list Z) : next_id ids ∉ ids.
Proof. intros H%next_id_fresh. lia. Qed.

Lemma fmap_alter_same {A B} (g : A → B) (f : A → A) (l : list A) (i : nat) :
  (∀ x, g (f x) = g x) → g <$> alter f i l = g <$> l.
Proof.
  intros Hf. revert i. induction l as [|x l IH]; intros [|i]; simpl; [done..| |].
  - by rewrite Hf.
  - f_equal. apply IH.
Qed.

Lemma NoDup_snoc_fresh {A} (l : list A) (x : A) :
  NoDup l → x ∉ l → NoDup (l ++ [x]).
Proof.
  intros Hl Hx. apply NoDup_app. split_and!; [done| |apply NoDup_singleton].
  intros y Hy ->%list_elem_of_singleton. done.
Qed.

Lemma elem_of_insert_inv {A} (l : list A) (i : nat) (x y : A) :
  y ∈ <[i:=x]> l → y = x ∨ ∃ j, j ≠ i ∧ l !! j = Some y.
Proof.
  intros (j & Hj)%list_elem_of_lookup_1.
  destruct (decide (j = i)) as [->|Hne].
  - left. destruct (decide (i < length l)%nat).
    + rewrite list_lookup_insert_eq in Hj by done. congruence.
    + rewrite list_insert_ge in Hj by lia. apply lookup_lt_Some in Hj. lia.
  - right. exists j. rewrite list_lookup_insert_ne in Hj by done. done.
Qed.

Lemma NoDup_fmap_insert {A B} (g : A → B) (l : list A) (i : nat) (x : A) :
  NoDup (g <$> l) →
  (∀ j y, l !! j = Some y → j ≠ i → g y ≠ g x) →
  NoDup (g <$> <[i:=x]> l).
Proof.
  intros Hl Hx. apply NoDup_alt. intros j1 j2 z H1 H2.
  rewrite list_lookup_fmap in H1, H2.
  destruct (<[i:=x]> l !! j1) as [y1|] eqn:E1; [|done].
  destruct (<[i:=x]> l !! j2) as [y2|] eqn:E2; [|done].
  simpl in *. simplify_eq.
  destruct (decide (j1 = i)) as [->|N1], (decide (j2 = i)) as [->|N2]; [done| | |].
  - rewrite list_lookup_insert_ne in E2 by done.
    pose proof (lookup_lt_Some _ _ _ E1) as Hlt. rewrite length_insert in Hlt.
    rewrite list_lookup_insert_eq in E1 by done.
    simplify_eq. exfalso. by eapply (Hx j2 y2).
  - rewrite list_lookup_insert_ne in E1 by done.
    pose proof (lookup_lt_Some _ _ _ E2) as Hlt. rewrite length_insert in Hlt.
    rewrite list_lookup_insert_eq in E2 by done.
    simplify_eq. exfalso. eapply (Hx j1 y1); done.
  - rewrite list_lookup_insert_ne in E1, E2 by done.
    eapply (NoDup_lookup _ _ _ _ Hl); rewrite list_lookup_fmap.
    + by rewrite E1.
    + rewrite E2. simpl. by f_equal.
Qed.

Lemma NoDup_fmap_delete {A B} (g : A → B) (l : list A) (i : nat) :
  NoDup (g <$> l) → NoDup (g <$> delete i l).
Proof.
  intros Hl. eapply sublist_NoDup; [exact Hl|].
  apply fmap_sublist, sublist_delete.
Qed.

Lemma NoDup_fmap_filter {A B} (g : A → B) (P : A → Prop)
  `{∀ x, Decision (P x)} (l : list A) :
  NoDup (g <$> l) → NoDup (g <$> filter P l).
Proof.
  intros Hl. eapply sublist_NoDup; [exact Hl|].
  apply fmap_sublist, sublist_filter.
Qed.

Lemma substring_length (n : nat) (s : string) :
  (String.length (String.substring 0 n s) ≤ n)%nat.
Proof.
  revert s. induction n as [|n IH]; intros [|c s]; simpl; try lia.
  specialize (IH s). lia.
Qed.

End fresh.

(** ** More on transfers *)

Section transfer_more.
Import Transfers.

(** X1. A transfer that succeeds appends one record to the transfers: the
    earlier ones stay in place, the new one has an id above all of
    theirs, the status "completed", the time of the request, and notes
    of at most 500 characters, empty when the request has none. *)
Theorem transfer_record_appended st b now c st' :
  handler_POST st b now = (Json 201 c, st') →
  transfers st' = transfers st ++ [transfer c]
  ∧ (∀ t0, t0 ∈ transfers st → Transfer.id t0 < Transfer.id (transfer c))
  ∧ Transfer.status (transfer c) = "completed"
  ∧ Transfer.createdAt (transfer c) = now
  ∧ (String.length (Transfer.notes (transfer c)) ≤ 500)%nat
  ∧ (JS.truthy (notes b) = false → Transfer.notes (transfer c) = "").
Proof.
  intros Hrun.
  destruct (handler_POST_cases st b now) as [(code & e & Hf)|Hok].
  { rewrite Hf in Hrun. discriminate. }
  destruct Hok as (p & from & to & q & product & fromW & toW & i & s & cleaned
                   & _ & _ & _ & _ & _ & _ & _ & _ & _ & _ & _ & _ & _
                   & _ & _ & Hnotes & Hres).
  rewrite Hres in Hrun. injection Hrun as <- <-. simpl.
  split_and!; try done.
  - intros t0 Ht0. apply next_id_fresh. by apply list_elem_of_fmap_2.
  - unfold clean_notes in Hnotes. destruct (JS.truthy (notes b)).
    + destruct (notes b); simplify_eq. apply substring_length.
    + simplify_eq. simpl. lia.
  - intros Hf. unfold clean_notes in Hnotes. rewrite Hf in Hnotes. by simplify_eq.
Qed.

Lemma transfer_record_appended_witness :
  ∃ c st',
    handler_POST Scenario.store
      (mkBody (JNum 1) (JStr "1") (JStr " 2") (JStr "30") (JStr "  restock B  ")) "t1"
    = (Json 201 c, st')
    ∧ transfers st' = [transfer c]
    ∧ Transfer.notes (transfer c) = "restock B".
Proof.
  eexists _, _. split; [reflexivity|].
  pose proof (transfer_record_appended Scenario.store
                (mkBody (JNum 1) (JStr "1") (JStr " 2") (JStr "30")
                   (JStr "  restock B  ")) "t1" _ _ eq_refl) as (H & _).
  split; [exact H|reflexivity].
Defined.

Lemma ledger_after_frame l i s p from to q now :
  list_find (Stock.at_ p from) l = Some (i, s) →
  let l' := ledger_after l i p to q now in
  (∀ p' w', (p', w') ≠ (p, from) → (p', w') ≠ (p, to) →
            getQuantity p' w' l' = getQuantity p' w' l)
  ∧ (∀ j x, l !! j = Some x →
            ∃ x', l' !! j = Some x' ∧ Stock.id x' = Stock.id x
                  ∧ stock_key x' = stock_key x
                  ∧ Stock.createdAt x' = Stock.createdAt x
                  ∧ (Stock.quantity x' ≠ Stock.quantity x →
                     Stock.productId x = p
                     ∧ (Stock.warehouseId x = from ∨ Stock.warehouseId x = to)))
  ∧ (length l ≤ length l' ≤ S (length l))%nat.
Proof.
  intros Hsrc l'. subst l'. unfold ledger_after.
  pose proof Hsrc as (Hi & [Hsp Hsw] & _)%list_find_Some.
  set (f1 := Stock.add_quantity (- q) now).
  set (l1 := alter f1 i l).
  assert (Hl1 : ∀ j x, l !! j = Some x →
            ∃ x', l1 !! j = Some x' ∧ Stock.id x' = Stock.id x
                  ∧ stock_key x' = stock_key x
                  ∧ Stock.createdAt x' = Stock.createdAt x
                  ∧ (Stock.quantity x' ≠ Stock.quantity x →
                     Stock.productId x = p ∧ Stock.warehouseId x = from)).
  { intros j x Hj. unfold l1. destruct (decide (j = i)) as [->|Hne].
    - rewrite list_lookup_alter_eq, Hj. simpl. eexists. split_and!; try done.
      intros _. by simplify_eq.
    - rewrite list_lookup_alter_ne by done. eexists. split_and!; done. }
  assert (Hq1 : ∀ p' w', (p', w') ≠ (p, from) →
                         getQuantity p' w' l1 = getQuantity p' w' l).
  { intros p' w' Hne. unfold l1, f1. eapply getQuantity_alter_other; [done|].
    intros [? ?]. apply Hne. congruence. }
  destruct (list_find (Stock.at_ p to) l1) as [[k y]|] eqn:Hdst.
  - pose proof Hdst as (Hk & [Hyp Hyw] & _)%list_find_Some.
    split_and!.
    + intros p' w' N1 N2. rewrite <- Hq1 by done.
      eapply getQuantity_alter_other; [done|].
      intros [? ?]. apply N2. congruence.
    + intros j x Hj. destruct (Hl1 j x Hj) as (x1 & Hx1 & Hid & Hkey & Hc & Hqty).
      destruct (decide (j = k)) as [->|Hne].
      * rewrite list_lookup_alter_eq, Hx1. simpl. eexists. split_and!; try done.
        intros _. simplify_eq. unfold stock_key in Hkey. simplify_eq. split; [congruence|].
        right. congruence.
      * rewrite list_lookup_alter_ne by done. eexists. split_and!; try done.
        intros Hd. destruct (Hqty Hd). auto.
    + rewrite length_alter. unfold l1. rewrite length_alter. lia.
    + rewrite length_alter. unfold l1. rewrite length_alter. lia.
  - split_and!.
    + intros p' w' N1 N2. rewrite <- Hq1 by done.
      apply getQuantity_snoc_other. intros [? ?]. simpl in *. apply N2. congruence.
    + intros j x Hj. destruct (Hl1 j x Hj) as (x1 & Hx1 & Hid & Hkey & Hc & Hqty).
      exists x1. split_and!; try done.
      * by apply lookup_app_l_Some.
      * intros Hd. destruct (Hqty Hd). auto.
    + rewrite length_app. unfold l1. rewrite length_alter. simpl. lia.
    + rewrite length_app. unfold l1. rewrite length_alter. simpl. lia.
Qed.

(** X2. A transfer that succeeds touches nothing but the two records it
    is about: products, warehouses and alerts are as they were; the
    quantity of every other product and warehouse pair is as it was; and
    every stock record keeps its place, id, product, warehouse and
    creation time, at most one record being added at the end. *)
Theorem transfer_touches_only_its_records st b now c st' :
  handler_POST st b now = (Json 201 c, st') →
  let p := Transfer.productId (transfer c) in
  let A := Transfer.fromWarehouseId (transfer c) in
  let B := Transfer.toWarehouseId (transfer c) in
  products st' = products st ∧ warehouses st' = warehouses st
  ∧ alerts st' = alerts st
  ∧ (∀ p' w', (p', w') ≠ (p, A) → (p', w') ≠ (p, B) →
              getQuantity p' w' (stock st') = getQuantity p' w' (stock st))
  ∧ (∀ j x, stock st !! j = Some x →
            ∃ x', stock st' !! j = Some x' ∧ Stock.id x' = Stock.id x
                  ∧ stock_key x' = stock_key x
                  ∧ Stock.createdAt x' = Stock.createdAt x
                  ∧ (Stock.quantity x' ≠ Stock.quantity x →
                     Stock.productId x = p
                     ∧ (Stock.warehouseId x = A ∨ Stock.warehouseId x = B)))
  ∧ (length (stock st) ≤ length (stock st') ≤ S (length (stock st)))%nat.
Proof.
  intros Hrun.
  destruct (handler_POST_cases st b now) as [(code & e & Hf)|Hok].
  { rewrite Hf in Hrun. discriminate. }
  destruct Hok as (p & from & to & q & product & fromW & toW & i & s & cleaned
                   & _ & _ & _ & _ & _ & _ & _ & _ & _ & _ & _ & _ & _
                   & Hsrc & _ & _ & Hres).
  rewrite Hres in Hrun. injection Hrun as <- <-. simpl.
  destruct (ledger_after_frame _ _ _ _ _ to q now Hsrc) as (H1 & H2 & H3 & H4).
  split_and!; done.
Qed.

Lemma transfer_touches_only_its_records_witness :
  ∃ c st',
    handler_POST Scenario.store
      (Scenario.transfer (JNum 1) (JNum 1) (JNum 2) (JNum 50)) "t1"
    = (Json 201 c, st')
    ∧ getQuantity 3 1 (stock st') = 5
    ∧ products st' = products Scenario.store.
Proof.
  eexists _, _. split; [reflexivity|].
  pose proof (transfer_touches_only_its_records Scenario.store
                (Scenario.transfer (JNum 1) (JNum 1) (JNum 2) (JNum 50)) "t1"
                _ _ eq_refl) as (Hp & _ & _ & Hq & _).
  split; [|exact Hp].
  rewrite (Hq 3 1); [reflexivity|discriminate|discriminate].
Defined.

End transfer_more.

(** ** The stock collection stays well formed *)

Section well_formed.
Implicit Types (st : Store) (l : list Stock.t).

Lemma key_fresh l p w :
  list_find (Stock.at_ p w) l = None → (p, w) ∉ stock_key <$> l.
Proof.
  intros Hn%list_find_None (x & Hx & Hin)%list_elem_of_fmap_1.
  apply (proj1 (Forall_forall _ _) Hn x Hin).
  unfold stock_key in Hx. by simplify_eq.
Qed.

Lemma js_find_None_list_find {A} (P : A → Prop) `{∀ x, Decision (P x)}
  (l : list A) :
  js_find P l = None → list_find P l = None.
Proof. unfold js_find. by destruct (list_find P l). Qed.

Lemma ledger_after_well_formed l i p to q now :
  well_formed_stock l → well_formed_stock (ledger_after l i p to q now).
Proof.
  intros [Hid Hkey]. unfold ledger_after.
  set (l1 := alter (Stock.add_quantity (- q) now) i l).
  assert (Stock.id <$> l1 = Stock.id <$> l) as Hid1
    by (by apply fmap_alter_same).
  assert (stock_key <$> l1 = stock_key <$> l) as Hkey1
    by (by apply fmap_alter_same).
  destruct (list_find (Stock.at_ p to) l1) as [[j y]|] eqn:Hdst.
  - split; rewrite fmap_alter_same by done; congruence.
  - split; rewrite fmap_app; apply NoDup_snoc_fresh; simpl.
    + congruence.
    + apply next_id_not_in.
    + congruence.
    + by apply key_fresh.
Qed.

Lemma create_well_formed st b now :
  well_formed_stock (stock st) →
  well_formed_stock (stock (StockApi.handler_POST st b now).2).
Proof.
  intros [Hid Hkey]. unfold StockApi.handler_POST.
  destruct (0 <? length _)%nat; [done|].
  repeat case_match; try done; simplify_eq; simpl.
  split; rewrite fmap_app; apply NoDup_snoc_fresh; simpl; try done.
  - apply next_id_not_in.
  - by apply key_fresh, js_find_None_list_find.
Qed.

Lemma update_well_formed st id b now :
  well_formed_stock (stock st) →
  well_formed_stock (stock (StockApi.handler_PUT st id b now).2).
Proof.
  intros [Hid Hkey]. unfold StockApi.handler_PUT.
  destruct (JS.parseInt (Some 10) id) as [parsedId|]; [|done].
  destruct (list_find _ (stock st)) as [[index old]|] eqn:Hfind; [|done].
  pose proof Hfind as (Hold & Holdid & _)%list_find_Some. simpl in Holdid.
  destruct (0 <? length _)%nat; [done|].
  destruct (if StockApi.is_undefined (StockApi.productId b) then _ else _)
    as [productId|]; [|done].
  destruct (if StockApi.is_undefined (StockApi.warehouseId b) then _ else _)
    as [warehouseId|]; [|done].
  destruct (if StockApi.is_undefined (StockApi.quantity b) then _ else _)
    as [quantity|]; [|done].
  assert (Hother : ∀ j y, stock st !! j = Some y → j ≠ index →
                          Stock.id y ≠ parsedId).
  { intros j y Hj Hne Heq. apply Hne.
    eapply (NoDup_lookup _ _ _ parsedId Hid); rewrite list_lookup_fmap.
    - by rewrite Hj; simpl; f_equal.
    - by rewrite Hold; simpl; f_equal. }
  destruct (bool_decide (productId ≠ Stock.productId old)
            || bool_decide (warehouseId ≠ Stock.warehouseId old)) eqn:Hchanged.
  - destruct (js_find _ (stock st)) as [existing|] eqn:Hdup; [done|]. simpl.
    apply js_find_None_list_find, list_find_None in Hdup.
    split.
    + apply NoDup_fmap_insert; [done|]. simpl. intros j y Hj Hne. by eapply Hother.
    + apply NoDup_fmap_insert; [done|]. intros j y Hj Hne Hk.
      apply (proj1 (Forall_forall _ _) Hdup y); [by eapply list_elem_of_lookup_2|].
      unfold stock_key in Hk. simpl in Hk. simplify_eq. split; [done|].
      by eapply Hother.
  - simpl. apply orb_false_iff in Hchanged as [H1 H2].
    apply bool_decide_eq_false in H1, H2.
    assert (productId = Stock.productId old) as -> by (by destruct (decide (productId = Stock.productId old)); [|exfalso; auto]).
    assert (warehouseId = Stock.warehouseId old) as -> by (by destruct (decide (warehouseId = Stock.warehouseId old)); [|exfalso; auto]).
    split; rewrite list_fmap_insert; simpl.
    + rewrite list_insert_id; [done|]. rewrite list_lookup_fmap, Hold. simpl. by f_equal.
    + rewrite list_insert_id; [done|]. by rewrite list_lookup_fmap, Hold.
Qed.

Lemma delete_well_formed st id :
  well_formed_stock (stock st) →
  well_formed_stock (stock (StockApi.handler_DELETE st id).2).
Proof.
  intros [Hid Hkey]. unfold StockApi.handler_DELETE.
  repeat case_match; try done; simplify_eq; simpl.
  all: split; by apply NoDup_fmap_delete.
Qed.

Lemma transfer_well_formed st b now :
  well_formed_stock (stock st) →
  well_formed_stock (stock (Transfers.handler_POST st b now).2).
Proof.
  intros Hst.
  destruct (handler_POST_cases st b now) as [(code & e & ->)|Hok]; [done|].
  destruct Hok as (p & from & to & q & product & fromW & toW & i & s & cleaned
                   & _ & _ & _ & _ & _ & _ & _ & _ & _ & _ & _ & _ & _
                   & _ & _ & _ & ->).
  simpl. by apply ledger_after_well_formed.
Qed.

Lemma product_delete_well_formed st id cascade :
  well_formed_stock (stock st) →
  well_formed_stock (stock (ProductItem.handler_DELETE st id cascade).2).
Proof.
  intros [Hid Hkey]. unfold ProductItem.handler_DELETE.
  repeat case_match; try done; simplify_eq; simpl.
  all: split; by apply NoDup_fmap_filter.
Qed.

Lemma warehouse_delete_well_formed st id cascade :
  well_formed_stock (stock st) →
  well_formed_stock (stock (WarehouseItem.handler_DELETE st id cascade).2).
Proof.
  intros [Hid Hkey]. unfold WarehouseItem.handler_DELETE.
  repeat case_match; try done; simplify_eq; simpl.
  all: split; by apply NoDup_fmap_filter.
Qed.

(** X3. Where no two stock records share an id or a product and
    warehouse pair, none do after any request that writes the stock:
    creating, updating or deleting a stock record, transferring stock,
    and deleting a product or a warehouse. *)
Theorem stock_stays_well_formed st now :
  well_formed_stock (stock st) →
  (∀ b, well_formed_stock (stock (StockApi.handler_POST st b now).2))
  ∧ (∀ id b, well_formed_stock (stock (StockApi.handler_PUT st id b now).2))
  ∧ (∀ id, well_formed_stock (stock (StockApi.handler_DELETE st id).2))
  ∧ (∀ b, well_formed_stock (stock (Transfers.handler_POST st b now).2))
  ∧ (∀ id cascade,
       well_formed_stock (stock (ProductItem.handler_DELETE st id cascade).2))
  ∧ (∀ id cascade,
       well_formed_stock (stock (WarehouseItem.handler_DELETE st id cascade).2)).
Proof.
  intros Hst. split_and!; intros.
  - by apply create_well_formed.
  - by apply update_well_formed.
  - by apply delete_well_formed.
  - by apply transfer_well_formed.
  - by apply product_delete_well_formed.
  - by apply warehouse_delete_well_formed.
Qed.

Lemma stock_stays_well_formed_witness :
  well_formed_stock (stock Scenario.store)
  ∧ well_formed_stock
      (stock (Transfers.handler_POST Scenario.store
                (Scenario.transfer (JNum 3) (JNum 1) (JNum 2) (JNum 5)) "t1").2).
Proof.
  assert (well_formed_stock (stock Scenario.store)) as Hst.
  { split; apply (bool_decide_unpack _); vm_compute; exact I. }
  split; [exact Hst|].
  destruct (stock_stays_well_formed Scenario.store "t1" Hst) as (_ & _ & _ & H & _).
  apply H.
Defined.

End well_formed.

(** ** Creating, reading, updating and deleting stock records *)

Section find_facts.
Context {A : Type} (P : A → Prop) `{∀ x, Decision (P x)}.

Lemma js_find_None_Forall (l : list A) :
  js_find P l = None ↔ Forall (λ x, ¬ P x) l.
Proof.
  unfold js_find. split.
  - intros E. apply (proj1 (list_find_None P l)). by destruct (list_find P l).
  - intros E. by rewrite (proj2 (list_find_None P l) E).
Qed.

Lemma js_find_Some_P (l : list A) (x : A) : js_find P l = Some x → P x ∧ x ∈ l.
Proof.
  unfold js_find. destruct (list_find P l) as [[i y]|] eqn:Hf; [|done].
  intros [= ->]. apply list_find_Some in Hf as (Hi & Hx & _).
  split; [done|]. by eapply list_elem_of_lookup_2.
Qed.

Lemma js_find_Exists (l : list A) : Exists P l → is_Some (js_find P l).
Proof.
  intros Hex. destruct (js_find P l) eqn:E; [by eexists|].
  apply js_find_None_Forall in E. apply Exists_exists in Hex as (x & Hx & HP).
  exfalso. by apply (proj1 (Forall_forall _ _) E x).
Qed.

Lemma js_find_app_l (l k : list A) (x : A) :
  js_find P l = Some x → js_find P (l ++ k) = Some x.
Proof.
  unfold js_find. destruct (list_find P l) as [[i y]|] eqn:Hf; [|done].
  intros [= ->]. by rewrite (list_find_app_l _ _ _ _ _ Hf).
Qed.

Lemma js_find_snoc_fresh (l : list A) (x : A) :
  Forall (λ y, ¬ P y) l → P x → js_find P (l ++ [x]) = Some x.
Proof.
  intros Hl Hx. unfold js_find.
  rewrite list_find_snoc_None by (by apply list_find_None).
  by rewrite decide_True.
Qed.

Lemma js_find_delete_other (l : list A) (i : nat) (x : A) :
  l !! i = Some x → ¬ P x → js_find P (delete i l) = js_find P l.
Proof.
  unfold js_find. revert i. induction l as [|a l IH]; intros [|i] Hi Hx;
    simplify_eq/=.
  - rewrite decide_False by done.
    destruct (list_find P l) as [[j y]|]; done.
  - destruct (decide (P a)); [done|].
    specialize (IH i Hi Hx).
    change (list_find P (delete i l)) with (list_find P (delete i l)) in *.
    destruct (list_find P (delete i l)) as [[j y]|],
             (list_find P l) as [[j' y']|]; simplify_eq/=; done.
Qed.

Lemma js_find_delete_gone (l : list A) (i : nat) :
  (∀ j y, l !! j = Some y → j ≠ i → ¬ P y) → js_find P (delete i l) = None.
Proof.
  intros Hl. apply js_find_None_Forall, Forall_lookup. intros j y Hj.
  destruct (decide (j < i)%nat).
  - rewrite list_lookup_delete_lt in Hj by done. eapply Hl; [done|lia].
  - rewrite list_lookup_delete_ge in Hj by lia. eapply Hl; [done|lia].
Qed.

Lemma js_find_insert_other (l : list A) (i : nat) (x y : A) :
  l !! i = Some x → ¬ P x → ¬ P y → js_find P (<[i:=y]> l) = js_find P l.
Proof.
  unfold js_find. revert i. induction l as [|a l IH]; intros [|i] Hi Hx Hy;
    simplify_eq/=.
  - by rewrite !decide_False by done.
  - destruct (decide (P a)); [done|].
    specialize (IH i Hi Hx Hy).
    destruct (list_find P (<[i:=y]> l)) as [[j z]|],
             (list_find P l) as [[j' z']|]; simplify_eq/=; done.
Qed.
End find_facts.

Section stock_crud.
Implicit Types (st : Store).

Lemma parse_Some_present v z :
  JS.parseInt (Some 10) v = Some z →
  JS.nullish v = false ∧ StockApi.is_undefined v = false.
Proof. destruct v; try done; vm_compute; discriminate. Qed.

Lemma check_product_nil v ps :
  StockApi.check_product v ps = [] ↔
  ∃ p, JS.parseInt (Some 10) v = Some p ∧ Exists (λ x, Product.id x = p) ps.
Proof.
  unfold StockApi.check_product. split.
  - destruct (JS.parseInt (Some 10) v) as [p|]; [|done].
    destruct (js_find _ ps) eqn:E; [|done]. intros _. exists p. split; [done|].
    by eapply js_find_Some_Exists.
  - intros (p & -> & Hex). by destruct (js_find_Exists _ _ Hex) as [x ->].
Qed.

Lemma check_warehouse_nil v ws :
  StockApi.check_warehouse v ws = [] ↔
  ∃ w, JS.parseInt (Some 10) v = Some w ∧ Exists (λ x, Warehouse.id x = w) ws.
Proof.
  unfold StockApi.check_warehouse. split.
  - destruct (JS.parseInt (Some 10) v) as [w|]; [|done].
    destruct (js_find _ ws) eqn:E; [|done]. intros _. exists w. split; [done|].
    by eapply js_find_Some_Exists.
  - intros (w & -> & Hex). by destruct (js_find_Exists _ _ Hex) as [x ->].
Qed.

Lemma check_quantity_nil_iff v :
  StockApi.check_quantity v = [] ↔
  ∃ q, JS.parseInt (Some 10) v = Some q ∧ 0 ≤ q.
Proof.
  split; [apply check_quantity_nil|].
  intros (q & Hq & Hpos). unfold StockApi.check_quantity. rewrite Hq.
  by rewrite (proj2 (Z.ltb_ge q 0)).
Qed.

Lemma stock_create_cases st b now s st' :
  StockApi.handler_POST st b now = (Json 201 s, st') →
  ∃ p w q,
      JS.parseInt (Some 10) (StockApi.productId b) = Some p
      ∧ JS.parseInt (Some 10) (StockApi.warehouseId b) = Some w
      ∧ JS.parseInt (Some 10) (StockApi.quantity b) = Some q
      ∧ Exists (λ x, Product.id x = p) (products st)
      ∧ Exists (λ x, Warehouse.id x = w) (warehouses st)
      ∧ 0 ≤ q
      ∧ Forall (λ x, ¬ Stock.at_ p w x) (stock st)
      ∧ s = Stock.mk (next_id (Stock.id <$> stock st)) p w q now now
      ∧ st' = set_stock st (stock st ++ [s]).
Proof.
  unfold StockApi.handler_POST.
  destruct (0 <? length _)%nat eqn:E; [done|].
  apply no_errors in E. unfold StockApi.validateStock in E.
  apply app_eq_nil in E as [E1 [E2 E3]%app_eq_nil].
  destruct (JS.nullish (StockApi.productId b)); [done|].
  destruct (JS.nullish (StockApi.warehouseId b)); [done|].
  destruct (JS.nullish (StockApi.quantity b)); [done|].
  apply check_product_nil in E1 as (p & -> & Hp).
  apply check_warehouse_nil in E2 as (w & -> & Hw).
  apply check_quantity_nil_iff in E3 as (q & -> & Hq).
  destruct (js_find _ (stock st)) eqn:Hdup; [done|].
  intros [= <- <-]. exists p, w, q. split_and!; try done.
  by apply (proj1 (js_find_None_Forall _ _)).
Qed.

(** X4. Creating a stock record succeeds exactly when the product id,
    the warehouse id and the quantity read as numbers, the product and
    the warehouse exist, the quantity is not negative and the pair has
    no record yet; the record is then added at the end of the stock,
    with an id above all others and the values read. *)
Theorem stock_create_succeeds_iff st b now s st' :
  StockApi.handler_POST st b now = (Json 201 s, st')
  ↔ ∃ p w q,
      JS.parseInt (Some 10) (StockApi.productId b) = Some p
      ∧ JS.parseInt (Some 10) (StockApi.warehouseId b) = Some w
      ∧ JS.parseInt (Some 10) (StockApi.quantity b) = Some q
      ∧ Exists (λ x, Product.id x = p) (products st)
      ∧ Exists (λ x, Warehouse.id x = w) (warehouses st)
      ∧ 0 ≤ q
      ∧ Forall (λ x, ¬ Stock.at_ p w x) (stock st)
      ∧ s = Stock.mk (next_id (Stock.id <$> stock st)) p w q now now
      ∧ st' = set_stock st (stock st ++ [s]).
Proof.
  split; [apply stock_create_cases|].
  intros (p & w & q & Hp & Hw & Hq & Hpe & Hwe & Hpos & Hfree & -> & ->).
  unfold StockApi.handler_POST.
  destruct (parse_Some_present _ _ Hp) as [Np _].
  destruct (parse_Some_present _ _ Hw) as [Nw _].
  destruct (parse_Some_present _ _ Hq) as [Nq _].
  assert (StockApi.validateStock b (products st) (warehouses st) = []) as ->.
  { unfold StockApi.validateStock. rewrite Np, Nw, Nq.
    rewrite (proj2 (check_product_nil _ _)) by eauto.
    rewrite (proj2 (check_warehouse_nil _ _)) by eauto.
    by rewrite (proj2 (check_quantity_nil_iff _)) by eauto. }
  simpl. rewrite Hp, Hw, Hq.
  by rewrite (proj2 (js_find_None_Forall _ _) Hfree).
Qed.

(** X5. A stock record just created is the one a GET of its id returns,
    and every record a GET returned before is still returned. *)
Theorem stock_create_then_get st b now s st' :
  StockApi.handler_POST st b now = (Json 201 s, st') →
  StockItem.handler_GET st' (JNum (Stock.id s)) = Json 200 s
  ∧ (∀ id s0, StockItem.handler_GET st id = Json 200 s0 →
              StockItem.handler_GET st' id = Json 200 s0).
Proof.
  intros (p & w & q & _ & _ & _ & _ & _ & _ & _ & -> & ->)%stock_create_cases.
  unfold StockItem.handler_GET. simpl. split.
  - rewrite js_find_snoc_fresh; [done| |done].
    apply Forall_forall. intros x Hx Heq.
    apply (next_id_not_in (Stock.id <$> stock st)). rewrite <- Heq.
    by apply list_elem_of_fmap_2.
  - intros id s0. destruct (JS.parseInt (Some 10) id) as [parsedId|]; [|done].
    destruct (js_find _ (stock st)) eqn:E; [|done]. intros [= ->].
    by rewrite (js_find_app_l _ _ _ _ E).
Qed.

Lemma stock_create_then_get_witness :
  ∃ s st',
    StockApi.handler_POST Scenario.store
      (StockApi.mkBody (JNum 2) (JStr "2") (JNum 7)) "t1" = (Json 201 s, st')
    ∧ Stock.id s = 4
    ∧ StockItem.handler_GET st' (JNum 4) = Json 200 s.
Proof.
  eexists _, _. split; [reflexivity|]. split; [reflexivity|].
  exact (proj1 (stock_create_then_get Scenario.store
                  (StockApi.mkBody (JNum 2) (JStr "2") (JNum 7)) "t1" _ _ eq_refl)).
Defined.

(** X6. An update that succeeds replaces the one record of that id in
    place: id and creation time stay, the update time is that of the
    request, a field the body leaves out keeps its value and a field it
    gives takes the number read, the quantity never a negative one; the
    other collections are as they were. *)
Theorem stock_update_is_partial st id b now s st' :
  StockApi.handler_PUT st id b now = (Json 200 s, st') →
  ∃ index old,
    list_find (λ x, Some (Stock.id x) = JS.parseInt (Some 10) id) (stock st)
    = Some (index, old)
    ∧ st' = set_stock st (<[index := s]> (stock st))
    ∧ Stock.id s = Stock.id old
    ∧ Stock.createdAt s = Stock.createdAt old
    ∧ Stock.updatedAt s = now
    ∧ Some (Stock.productId s)
      = (if StockApi.is_undefined (StockApi.productId b)
         then Some (Stock.productId old)
         else JS.parseInt (Some 10) (StockApi.productId b))
    ∧ Some (Stock.warehouseId s)
      = (if StockApi.is_undefined (StockApi.warehouseId b)
         then Some (Stock.warehouseId old)
         else JS.parseInt (Some 10) (StockApi.warehouseId b))
    ∧ Some (Stock.quantity s)
      = (if StockApi.is_undefined (StockApi.quantity b)
         then Some (Stock.quantity old)
         else JS.parseInt (Some 10) (StockApi.quantity b))
    ∧ (StockApi.is_undefined (StockApi.quantity b) = false → 0 ≤ Stock.quantity s).
Proof.
  unfold StockApi.handler_PUT.
  destruct (JS.parseInt (Some 10) id) as [parsedId|]; [|done].
  destruct (list_find _ (stock st)) as [[index old]|] eqn:Hfind; [|done].
  pose proof Hfind as (Hold & Holdid & Hmin)%list_find_Some. simpl in Holdid.
  destruct (0 <? length _)%nat eqn:E; [done|].
  apply no_errors in E. unfold StockApi.validateStockUpdate in E.
  apply app_eq_nil in E as [_ [_ E]%app_eq_nil].
  destruct (if StockApi.is_undefined (StockApi.productId b) then _ else _)
    as [productId|] eqn:Ep; [|done].
  destruct (if StockApi.is_undefined (StockApi.warehouseId b) then _ else _)
    as [warehouseId|] eqn:Ew; [|done].
  assert (∃ quantity,
            (if StockApi.is_undefined (StockApi.quantity b)
             then Some (Stock.quantity old)
             else JS.parseInt (Some 10) (StockApi.quantity b)) = Some quantity
            ∧ (StockApi.is_undefined (StockApi.quantity b) = false → 0 ≤ quantity))
    as (quantity & Eq & Hpos).
  { destruct (StockApi.is_undefined (StockApi.quantity b)); [by eexists|].
    apply check_quantity_nil in E as (q & Hq & Hpos). eauto. }
  rewrite Eq. clear E.
  destruct (if _ || _ then _ else _); [done|].
  intros [= <- <-]. exists index, old. simpl. split_and!; try done.
  apply list_find_Some. split_and!; [done|by f_equal|].
  intros j y Hj Hlt [= Hy]. by eapply Hmin.
Qed.

Lemma stock_update_is_partial_witness :
  ∃ s st',
    StockApi.handler_PUT Scenario.store (JStr "2")
      (StockApi.mkBody JUndefined JUndefined (JNum 25)) "t1" = (Json 200 s, st')
    ∧ s = Stock.mk 2 1 2 25 "t0" "t1".
Proof.
  eexists _, _. split; [reflexivity|].
  destruct (stock_update_is_partial Scenario.store (JStr "2")
              (StockApi.mkBody JUndefined JUndefined (JNum 25)) "t1" _ _ eq_refl)
    as (index & old & _).
  reflexivity.
Defined.

(** X7. Where the stock records have distinct ids, a record that has
    been deleted is no longer found by a GET of its id, the stock is one
    record shorter, and a GET of any other id answers as before. *)
Theorem stock_delete_then_get st id st' :
  NoDup (Stock.id <$> stock st) →
  StockApi.handler_DELETE st id = (Empty 204, st') →
  StockItem.handler_GET st' id = Fail 404 (err "Not Found" "Stock item not found")
  ∧ S (length (stock st')) = length (stock st)
  ∧ (∀ id', JS.parseInt (Some 10) id' ≠ JS.parseInt (Some 10) id →
            StockItem.handler_GET st' id' = StockItem.handler_GET st id').
Proof.
  intros Hnd. unfold StockApi.handler_DELETE, StockItem.handler_GET.
  destruct (JS.parseInt (Some 10) id) as [parsedId|]; [|done].
  destruct (list_find _ (stock st)) as [[index old]|] eqn:Hfind; [|done].
  pose proof Hfind as (Hold & Holdid & _)%list_find_Some. simpl in Holdid.
  intros [= <-]. simpl. split_and!.
  - rewrite js_find_delete_gone; [done|].
    intros j y Hj Hne Hy. apply Hne.
    eapply (NoDup_lookup _ _ _ parsedId Hnd); rewrite list_lookup_fmap.
    + by rewrite Hj; simpl; f_equal.
    + by rewrite Hold; simpl; f_equal.
  - rewrite length_delete by eauto. apply lookup_lt_Some in Hold. lia.
  - intros id' Hne. destruct (JS.parseInt (Some 10) id') as [parsed'|]; [|done].
    rewrite (js_find_delete_other _ _ _ old); [done..|]. congruence.
Qed.

Lemma stock_delete_then_get_witness :
  ∃ st',
    StockApi.handler_DELETE Scenario.store (JNum 2) = (Empty 204, st')
    ∧ StockItem.handler_GET st' (JNum 2)
      = Fail 404 (err "Not Found" "Stock item not found")
    ∧ StockItem.handler_GET st' (JNum 3) = StockItem.handler_GET Scenario.store (JNum 3).
Proof.
  eexists. split; [reflexivity|].
  destruct (stock_delete_then_get Scenario.store (JNum 2) _
              ltac:(apply (bool_decide_unpack _); vm_compute; exact I) eq_refl)
    as (H1 & _ & H3).
  split; [exact H1|]. apply H3. discriminate.
Defined.



End stock_crud.

(** ** Deleting products, warehouses and transfers *)

Section deletions.
Implicit Types (st : Store).

Lemma filter_none_keeps_all {A} (P : A → Prop) `{∀ x, Decision (P x)}
  (l : list A) :
  (0 <? length (filter P l))%nat = false → filter (λ x, ¬ P x) l = l.
Proof.
  induction l as [|x l IH]; [done|].
  rewrite !filter_cons. destruct (decide (P x)) as [Hx|Hx]; simpl; [done|].
  intros Hl. rewrite decide_True by done. f_equal. by apply IH.
Qed.

(** X8. A product is deleted only if no stock record refers to it or the
    request asks for the cascade; once it is deleted no stock record
    refers to it and the stock of the other products is what it was.
    When stock refers to it and the cascade is not asked for, the answer
    is 409 with the number of records and nothing is written. *)
Theorem product_delete_leaves_no_orphans st id cascade r st' :
  ProductItem.handler_DELETE st id cascade = (r, st') →
  match r with
  | Deleted =>
      ∃ parsedId index,
        JS.parseInt (Some 10) id = Some parsedId
        ∧ stock st' = filter (λ s, Stock.productId s ≠ parsedId) (stock st)
        ∧ Forall (λ s, Stock.productId s ≠ parsedId) (stock st')
        ∧ products st' = delete index (products st)
        ∧ S (length (products st')) = length (products st)
        ∧ (Exists (λ s, Stock.productId s = parsedId) (stock st) →
           cascade = JStr "true")
        ∧ warehouses st' = warehouses st ∧ transfers st' = transfers st
        ∧ alerts st' = alerts st
  | Referenced m n =>
      st' = st ∧ cascade ≠ JStr "true" ∧ (0 < n)%nat
      ∧ ∃ parsedId, JS.parseInt (Some 10) id = Some parsedId
                    ∧ n = length (filter (λ s, Stock.productId s = parsedId) (stock st))
  | Refused code e => st' = st ∧ (code = 400 ∨ code = 404)
  end.
Proof.
  unfold ProductItem.handler_DELETE.
  destruct (JS.parseInt (Some 10) id) as [parsedId|]; [|intros [= <- <-]; auto].
  destruct (list_find _ (products st)) as [[index old]|] eqn:Hfind;
    [|intros [= <- <-]; auto].
  apply list_find_Some in Hfind as (Hold & _ & _).
  unfold is_true.
  destruct (0 <? length _)%nat eqn:Hrel; simpl.
  - destruct (bool_decide (cascade = JStr "true")) eqn:Hc; simpl.
    + apply bool_decide_eq_true in Hc. intros [= <- <-]. simpl.
      exists parsedId, index. split_and!; try done.
      * apply Forall_forall. by intros s [Hs _]%list_elem_of_filter.
      * rewrite length_delete by eauto. apply lookup_lt_Some in Hold. lia.
    + apply bool_decide_eq_false in Hc. intros [= <- <-].
      split_and!; try done; [by apply Nat.ltb_lt|]. by exists parsedId.
  - rewrite andb_false_r. intros [= <- <-]. simpl.
    pose proof (filter_none_keeps_all _ _ Hrel) as Hall.
    exists parsedId, index. split_and!; try done.
    + rewrite <- Hall at 1. apply Forall_forall.
      by intros s [Hs _]%list_elem_of_filter.
    + rewrite length_delete by eauto. apply lookup_lt_Some in Hold. lia.
    + intros (s & Hs & Hp)%Exists_exists. exfalso.
      assert (s ∈ filter (λ s, Stock.productId s = parsedId) (stock st)) as Hin
        by (by apply list_elem_of_filter).
      destruct (filter _ (stock st)); [by apply elem_of_nil in Hin|done].
Qed.

Lemma product_delete_leaves_no_orphans_witness :
  (ProductItem.handler_DELETE Scenario.store (JStr "1") JUndefined).1
  = Referenced (ProductItem.referenced_message 2) 2
  ∧ stock (ProductItem.handler_DELETE Scenario.store (JStr "1") (JStr "true")).2
    = [Stock.mk 3 3 1 5 "t0" "t0"].
Proof.
  pose proof (product_delete_leaves_no_orphans Scenario.store (JStr "1")
                (JStr "true") _ _ eq_refl) as (parsedId & index & Hp & Hs & _).
  split; [reflexivity|]. injection Hp as <-. exact Hs.
Defined.

(** X9. The same for a warehouse: it is deleted only if no stock record
    is in it or the request asks for the cascade, after which no stock
    record is in it and the stock of the other warehouses is what it
    was; otherwise the answer is 409 and nothing is written. *)
Theorem warehouse_delete_leaves_no_orphans st id cascade r st' :
  WarehouseItem.handler_DELETE st id cascade = (r, st') →
  match r with
  | Deleted =>
      ∃ parsedId index,
        JS.parseInt (Some 10) id = Some parsedId
        ∧ stock st' = filter (λ s, Stock.warehouseId s ≠ parsedId) (stock st)
        ∧ Forall (λ s, Stock.warehouseId s ≠ parsedId) (stock st')
        ∧ warehouses st' = delete index (warehouses st)
        ∧ S (length (warehouses st')) = length (warehouses st)
        ∧ (Exists (λ s, Stock.warehouseId s = parsedId) (stock st) →
           cascade = JStr "true")
        ∧ products st' = products st ∧ transfers st' = transfers st
        ∧ alerts st' = alerts st
  | Referenced m n =>
      st' = st ∧ cascade ≠ JStr "true" ∧ (0 < n)%nat
      ∧ ∃ parsedId, JS.parseInt (Some 10) id = Some parsedId
                    ∧ n = length (filter (λ s, Stock.warehouseId s = parsedId) (stock st))
  | Refused code e => st' = st ∧ (code = 400 ∨ code = 404)
  end.
Proof.
  unfold WarehouseItem.handler_DELETE.
  destruct (JS.parseInt (Some 10) id) as [parsedId|]; [|intros [= <- <-]; auto].
  destruct (list_find _ (warehouses st)) as [[index old]|] eqn:Hfind;
    [|intros [= <- <-]; auto].
  apply list_find_Some in Hfind as (Hold & _ & _).
  unfold is_true.
  destruct (0 <? length _)%nat eqn:Hrel; simpl.
  - destruct (bool_decide (cascade = JStr "true")) eqn:Hc; simpl.
    + apply bool_decide_eq_true in Hc. intros [= <- <-]. simpl.
      exists parsedId, index. split_and!; try done.
      * apply Forall_forall. by intros s [Hs _]%list_elem_of_filter.
      * rewrite length_delete by eauto. apply lookup_lt_Some in Hold. lia.
    + apply bool_decide_eq_false in Hc. intros [= <- <-].
      split_and!; try done; [by apply Nat.ltb_lt|]. by exists parsedId.
  - rewrite andb_false_r. intros [= <- <-]. simpl.
    pose proof (filter_none_keeps_all _ _ Hrel) as Hall.
    exists parsedId, index. split_and!; try done.
    + rewrite <- Hall at 1. apply Forall_forall.
      by intros s [Hs _]%list_elem_of_filter.
    + rewrite length_delete by eauto. apply lookup_lt_Some in Hold. lia.
    + intros (s & Hs & Hp)%Exists_exists. exfalso.
      assert (s ∈ filter (λ s, Stock.warehouseId s = parsedId) (stock st)) as Hin
        by (by apply list_elem_of_filter).
      destruct (filter _ (stock st)); [by apply elem_of_nil in Hin|done].
Qed.

Lemma warehouse_delete_leaves_no_orphans_witness :
  (WarehouseItem.handler_DELETE Scenario.store (JStr "2") JUndefined).1
  = Referenced (WarehouseItem.referenced_message 1) 1
  ∧ stock (WarehouseItem.handler_DELETE Scenario.store (JStr "2") (JStr "true")).2
    = [Stock.mk 1 1 1 100 "t0" "t0"; Stock.mk 3 3 1 5 "t0" "t0"].
Proof.
  pose proof (warehouse_delete_leaves_no_orphans Scenario.store (JStr "2")
                (JStr "true") _ _ eq_refl) as (parsedId & index & Hp & Hs & _).
  split; [reflexivity|]. injection Hp as <-. exact Hs.
Defined.

Lemma delete_last {A} (l : list A) (x : A) : delete (length l) (l ++ [x]) = l.
Proof. induction l as [|a l IH]; simpl; [done|]. by f_equal. Qed.

(** X10. Deleting a transfer never changes the stock, the products, the
    warehouses or the alerts: the movement it recorded is not undone.
    When it succeeds the transfers are one fewer and, their ids being
    distinct, a GET of the id answers 404. *)
Theorem transfer_delete_keeps_stock st id r st' :
  TransferItem.handler_DELETE st id = (r, st') →
  stock st' = stock st ∧ products st' = products st
  ∧ warehouses st' = warehouses st ∧ alerts st' = alerts st
  ∧ (r = Empty 204 →
     S (length (transfers st')) = length (transfers st)
     ∧ (NoDup (Transfer.id <$> transfers st) →
        ∃ transferId,
          JS.parseInt (Some 10) id = Some transferId
          ∧ TransferItem.handler_GET st' id
            = Fail 404 (TransferItem.missing transferId)))
  ∧ (r ≠ Empty 204 → st' = st).
Proof.
  unfold TransferItem.handler_DELETE, TransferItem.handler_GET.
  destruct (JS.parseInt (Some 10) id) as [transferId|];
    [|intros [= <- <-]; split_and!; done].
  destruct (list_find _ (transfers st)) as [[index old]|] eqn:Hfind;
    [|intros [= <- <-]; split_and!; done].
  pose proof Hfind as (Hold & Holdid & _)%list_find_Some. simpl in Holdid.
  intros [= <- <-]. simpl. split_and!; try done.
  intros _. split.
  - rewrite length_delete by eauto. apply lookup_lt_Some in Hold. lia.
  - intros Hnd. exists transferId. split; [done|].
    rewrite js_find_delete_gone; [done|].
    intros j y Hj Hne Hy. apply Hne.
    eapply (NoDup_lookup _ _ _ transferId Hnd); rewrite list_lookup_fmap.
    + by rewrite Hj; simpl; f_equal.
    + by rewrite Hold; simpl; f_equal.
Qed.

Lemma transfer_delete_keeps_stock_witness :
  ∃ c st1 st2,
    Transfers.handler_POST Scenario.store
      (Scenario.transfer (JNum 1) (JNum 1) (JNum 2) (JNum 50)) "t1"
    = (Json 201 c, st1)
    ∧ TransferItem.handler_DELETE st1 (JNum 1) = (Empty 204, st2)
    ∧ stock st2 = stock st1.
Proof.
  eexists _, _, _. split; [reflexivity|]. split; [reflexivity|].
  match goal with
  | |- stock ?st2 = stock ?st1 =>
      exact (proj1 (transfer_delete_keeps_stock st1 (JNum 1) (Empty 204) st2 eq_refl))
  end.
Defined.

(** X11. Deleting the transfer a request has just made gives back the
    transfers as they were before the request and leaves the stock as
    the transfer made it. *)
Theorem transfer_then_delete st b now c st1 :
  Transfers.handler_POST st b now = (Json 201 c, st1) →
  TransferItem.handler_DELETE st1 (JNum (Transfer.id (Transfers.transfer c)))
  = (Empty 204, set_transfers st1 (transfers st))
  ∧ TransferItem.handler_GET st1 (JNum (Transfer.id (Transfers.transfer c)))
    = Json 200
        (TransferItem.mkEnriched (Transfers.transfer c)
           (Some (Transfers.product c)) (Some (Transfers.fromWarehouse c))
           (Some (Transfers.toWarehouse c))).
Proof.
  intros Hrun.
  destruct (handler_POST_cases st b now) as [(code & e & Hf)|Hok].
  { rewrite Hf in Hrun. discriminate. }
  destruct Hok as (p & from & to & q & product & fromW & toW & i & s & cleaned
                   & _ & _ & _ & _ & _ & _ & _ & _ & _ & _ & F1 & F2 & F3
                   & _ & _ & _ & Hres).
  rewrite Hres in Hrun. injection Hrun as <- <-.
  set (t := Transfer.mk _ _ _ _ _ _ _ _).
  assert (Hfresh : Forall (λ y, ¬ Transfer.id y = Transfer.id t) (transfers st)).
  { apply Forall_forall. intros x Hx Heq.
    apply (next_id_not_in (Transfer.id <$> transfers st)).
    change (next_id (Transfer.id <$> transfers st)) with (Transfer.id t).
    rewrite <- Heq. by apply list_elem_of_fmap_2. }
  unfold TransferItem.handler_DELETE, TransferItem.handler_GET. simpl.
  split.
  - rewrite list_find_snoc_None by (by apply list_find_None).
    rewrite decide_True by done. by rewrite delete_last.
  - rewrite js_find_snoc_fresh by done. simpl. by rewrite F1, F2, F3.
Qed.

Lemma transfer_then_delete_witness :
  ∃ c st1,
    Transfers.handler_POST Scenario.store
      (Scenario.transfer (JNum 1) (JNum 1) (JNum 2) (JNum 50)) "t1"
    = (Json 201 c, st1)
    ∧ (TransferItem.handler_DELETE st1 (JNum 1)).2
      = set_transfers st1 (transfers Scenario.store).
Proof.
  eexists _, _. split; [reflexivity|].
  destruct (transfer_then_delete Scenario.store
              (Scenario.transfer (JNum 1) (JNum 1) (JNum 2) (JNum 50)) "t1"
              _ _ eq_refl) as [H _].
  exact (f_equal snd H).
Defined.

End deletions.

(** ** A transfer and the transfer back *)

Section transfer_back.
Import Transfers.






End transfer_back.

(** ** More on alert actions *)

Section alerts_more.
Import AlertsApi.

Lemma apply_action_keeps action notes now x y :
  apply_action action notes now x = Some y →
  Alert.id (touch now y) = Alert.id x
  ∧ Alert.createdAt (touch now y) = Alert.createdAt x
  ∧ Alert.acknowledgedBy (touch now y) = Alert.acknowledgedBy x
  ∧ Alert.updatedAt (touch now y) = Some now
  ∧ (action ≠ JStr "acknowledge" → action ≠ JStr "unacknowledge" →
     Alert.acknowledged (touch now y) = Alert.acknowledged x
     ∧ Alert.acknowledgedAt (touch now y) = Alert.acknowledgedAt x)
  ∧ (action ≠ JStr "dismiss" → action ≠ JStr "undismiss" →
     Alert.dismissed (touch now y) = Alert.dismissed x
     ∧ Alert.dismissedAt (touch now y) = Alert.dismissedAt x)
  ∧ (action ≠ JStr "update_notes" → Alert.notes (touch now y) = Alert.notes x).
Proof.
  unfold apply_action. destruct x.
  repeat case_decide; intros [= <-]; simpl; split_and!; try done;
    intros; simplify_eq; done.
Qed.

Lemma located_records records pid now :
  (located records pid now).1.1 !! (located records pid now).1.2
  = Some (located records pid now).2
  ∧ (∀ j x, records !! j = Some x → Alert.productId x ≠ pid →
            j ≠ (located records pid now).1.2
            ∧ (located records pid now).1.1 !! j = Some x)
  ∧ (length records ≤ length (located records pid now).1.1 ≤ S (length records))%nat.
Proof.
  unfold located. destruct (list_find _ records) as [[i a]|] eqn:Hf; simpl.
  - apply list_find_Some in Hf as (Hi & Ha & _). split_and!; [done| |lia..].
    intros j x Hj Hx. split; [|done]. intros ->. congruence.
  - split_and!.
    + by rewrite lookup_app_r, Nat.sub_diag.
    + intros j x Hj Hx. split.
      * apply lookup_lt_Some in Hj. lia.
      * by apply lookup_app_l_Some.
    + rewrite length_app. simpl. lia.
    + rewrite length_app. simpl. lia.
Qed.

Lemma located_found_after records pid now x :
  Alert.productId x = pid →
  js_find (λ a, Alert.productId a = pid)
    (<[(located records pid now).1.2 := x]> (located records pid now).1.1)
  = Some x.
Proof.
  intros Hx. unfold located, js_find.
  destruct (list_find _ records) as [[i a]|] eqn:Hf; simpl.
  - by rewrite (list_find_insert_same _ _ _ a x Hf Hx).
  - rewrite insert_last, list_find_snoc_None by done. by rewrite decide_True.
Qed.




(** X14. An alert action that succeeds changes in the record of the
    product only the fields that are its own and the update time: id,
    creation time and acknowledgedBy stay; acknowledged and
    acknowledgedAt change only by acknowledge and unacknowledge;
    dismissed and dismissedAt only by dismiss and undismiss; the notes
    only by update_notes. The alert records of other products stay in
    place, and products, warehouses, stock and transfers are as they
    were; when the write fails the whole store is. *)
Theorem alert_action_changes_only_its_fields st b now w u st' :
  handler_POST st b now w = (Json 200 u, st') →
  ∃ pid,
    JS.parseInt None (Body.productId b) = Some pid
    ∧ Alert.productId (Updated.alert u) = pid
    ∧ (let current := (located (alerts st) pid now).2 in
       let a := Updated.alert u in
       Alert.id a = Alert.id current
       ∧ Alert.createdAt a = Alert.createdAt current
       ∧ Alert.acknowledgedBy a = Alert.acknowledgedBy current
       ∧ Alert.updatedAt a = Some now
       ∧ (Body.action b ≠ JStr "acknowledge" → Body.action b ≠ JStr "unacknowledge" →
          Alert.acknowledged a = Alert.acknowledged current
          ∧ Alert.acknowledgedAt a = Alert.acknowledgedAt current)
       ∧ (Body.action b ≠ JStr "dismiss" → Body.action b ≠ JStr "undismiss" →
          Alert.dismissed a = Alert.dismissed current
          ∧ Alert.dismissedAt a = Alert.dismissedAt current)
       ∧ (Body.action b ≠ JStr "update_notes" →
          Alert.notes a = Alert.notes current))
    ∧ (∀ j x, alerts st !! j = Some x → Alert.productId x ≠ pid →
              alerts st' !! j = Some x)
    ∧ products st' = products st ∧ warehouses st' = warehouses st
    ∧ stock st' = stock st ∧ transfers st' = transfers st
    ∧ Updated.persisted u = w
    ∧ (w = false → st' = st).
Proof.
  destruct (JS.truthy (Body.productId b)) eqn:Ht; cycle 1.
  { unfold handler_POST. by rewrite Ht. }
  destruct (JS.parseInt None (Body.productId b)) as [pid|] eqn:Hp; cycle 1.
  { unfold handler_POST. by rewrite Ht, Hp. }
  destruct (js_find (λ p, Product.id p = pid) (products st)) as [product|] eqn:Hf;
    cycle 1.
  { unfold handler_POST. by rewrite Ht, Hp, Hf. }
  rewrite (handler_POST_present st b now w pid product Ht Hp Hf).
  destruct (apply_action _ _ _ _) as [changed|] eqn:Ha; [|done].
  intros [= <- <-]. exists pid. simpl.
  pose proof (apply_action_productId _ _ _ _ _ Ha) as Hpid.
  rewrite located_productId in Hpid.
  destruct (apply_action_keeps _ _ _ _ _ Ha) as (K1 & K2 & K3 & K4 & K5 & K6 & K7).
  split_and!; try done; try (by destruct w).
  - intros j x Hj Hx. destruct w; [|done]. simpl.
    destruct (located_records (alerts st) pid now) as (_ & Hother & _).
    destruct (Hother j x Hj Hx) as [Hne Hj'].
    by rewrite list_lookup_insert_ne.
Qed.

Lemma alert_action_changes_only_its_fields_witness :
  ∃ u st',
    handler_POST Scenario.store (Scenario.act 1 "dismiss") "t1" true
    = (Json 200 u, st')
    ∧ Alert.acknowledged (Updated.alert u) = false
    ∧ stock st' = stock Scenario.store.
Proof.
  eexists _, _. split; [reflexivity|].
  destruct (alert_action_changes_only_its_fields Scenario.store
              (Scenario.act 1 "dismiss") "t1" true _ _ eq_refl)
    as (pid & _ & _ & (_ & _ & _ & _ & Hack & _) & _ & _ & _ & Hs & _).
  split; [|exact Hs].
  destruct Hack as [-> _]; [discriminate..|reflexivity].
Defined.

(** X15. On a product of the store, acknowledge followed by
    unacknowledge leaves the product's record unacknowledged with no
    acknowledgement time, updated at the second request, and found by
    the product id; the first answer had it acknowledged at the time of
    the first request. Dismissal and notes are those the record had. *)
Theorem acknowledge_then_unacknowledge st b1 b2 now1 now2 pid product :
  JS.truthy (Body.productId b1) = true →
  Body.productId b2 = Body.productId b1 →
  JS.parseInt None (Body.productId b1) = Some pid →
  js_find (λ p, Product.id p = pid) (products st) = Some product →
  Body.action b1 = JStr "acknowledge" →
  Body.action b2 = JStr "unacknowledge" →
  ∃ u1 st1 u2 st2,
    handler_POST st b1 now1 true = (Json 200 u1, st1)
    ∧ handler_POST st1 b2 now2 true = (Json 200 u2, st2)
    ∧ Alert.acknowledged (Updated.alert u1) = true
    ∧ Alert.acknowledgedAt (Updated.alert u1) = Some now1
    ∧ Alert.acknowledged (Updated.alert u2) = false
    ∧ Alert.acknowledgedAt (Updated.alert u2) = None
    ∧ Alert.updatedAt (Updated.alert u2) = Some now2
    ∧ Alert.dismissed (Updated.alert u2)
      = Alert.dismissed (located (alerts st) pid now1).2
    ∧ Alert.notes (Updated.alert u2)
      = Alert.notes (located (alerts st) pid now1).2
    ∧ js_find (λ a, Alert.productId a = pid) (alerts st2) = Some (Updated.alert u2).
Proof.
  intros Ht Hsame Hp Hf A1 A2.
  assert (Ht2 : JS.truthy (Body.productId b2) = true) by (by rewrite Hsame).
  assert (Hp2 : JS.parseInt None (Body.productId b2) = Some pid) by (by rewrite Hsame).
  set (cur := (located (alerts st) pid now1).2).
  assert (∃ x1, apply_action (Body.action b1) (Body.notes b1) now1 cur = Some x1)
    as [x1 Hx1] by (rewrite A1; destruct cur; by eexists).
  assert (∃ x2, apply_action (Body.action b2) (Body.notes b2) now2 (touch now1 x1)
                = Some x2)
    as [x2 Hx2] by (rewrite A2; destruct (touch now1 x1); by eexists).
  pose proof (apply_action_productId _ _ _ _ _ Hx1) as Hpid1.
  unfold cur in Hpid1. rewrite located_productId in Hpid1.
  pose proof (apply_action_productId _ _ _ _ _ Hx2) as Hpid2.
  rewrite Hpid1 in Hpid2.
  destruct (located_after_write (alerts st) pid now1 now2 (touch now1 x1) Hpid1)
    as (Hloc & _).
  cbv zeta in Hloc.
  eexists _, _, _, _. split.
  { rewrite (handler_POST_present st b1 now1 true pid product Ht Hp Hf).
    fold cur. rewrite Hx1. reflexivity. }
  split.
  { match goal with
    | |- handler_POST ?s b2 now2 true = _ =>
        rewrite (handler_POST_present s b2 now2 true pid product Ht2 Hp2 Hf)
    end.
    change (alerts (set_alerts st ?l)) with l.
    rewrite Hloc. cbn [fst snd]. rewrite Hx2. reflexivity. }
  simpl.
  assert (x1 = (let '(Alert.mk id p _ _ by_ d dAt n c up) := cur in
                Alert.mk id p true (Some now1) by_ d dAt n c up)) as E1.
  { revert Hx1. rewrite A1. unfold apply_action. destruct cur.
    rewrite decide_True by done. by intros [= <-]. }
  assert (touch now2 x2
          = (let '(Alert.mk id p _ _ by_ d dAt n c _) := cur in
             Alert.mk id p false None by_ d dAt n c (Some now2))) as E2.
  { revert Hx2. rewrite A2, E1. unfold apply_action, touch. destruct cur.
    rewrite decide_False by done. rewrite decide_True by done.
    by intros [= <-]. }
  split_and!.
  - rewrite E1. by destruct cur.
  - rewrite E1. by destruct cur.
  - rewrite E2. by destruct cur.
  - rewrite E2. by destruct cur.
  - rewrite E2. by destruct cur.
  - rewrite E2. by destruct cur.
  - rewrite E2. by destruct cur.
  - pose proof (located_found_after
                  (<[(located (alerts st) pid now1).1.2 := touch now1 x1]>
                     (located (alerts st) pid now1).1.1)
                  pid now2 (touch now2 x2) Hpid2) as Hfound.
    rewrite Hloc in Hfound. exact Hfound.
Qed.

Lemma acknowledge_then_unacknowledge_witness :
  ∃ u1 st1 u2 st2,
    handler_POST Scenario.store (Scenario.act 1 "acknowledge") "t1" true
    = (Json 200 u1, st1)
    ∧ handler_POST st1 (Scenario.act 1 "unacknowledge") "t2" true
      = (Json 200 u2, st2)
    ∧ Alert.acknowledged (Updated.alert u2) = false
    ∧ Alert.updatedAt (Updated.alert u2) = Some "t2".
Proof.
  destruct (acknowledge_then_unacknowledge Scenario.store
              (Scenario.act 1 "acknowledge") (Scenario.act 1 "unacknowledge")
              "t1" "t2" 1 Scenario.X eq_refl eq_refl eq_refl eq_refl eq_refl eq_refl)
    as (u1 & st1 & u2 & st2 & H1 & H2 & _ & _ & H3 & _ & H4 & _).
  exists u1, st1, u2, st2. split_and!; assumption.
Defined.

End alerts_more.

(** ** The alert of one product and the listing *)

Section alert_reads.
Import AlertsApi.

(** X16. After an alert action that was written, the alert of the
    product read by alerts/[productId].js shows the record of the
    answer: its acknowledgement, its acknowledgement time and its
    notes. The action reads the product id without a radix and the
    read with radix 10, so the two must name the same number. *)
Theorem alert_action_then_get st b now u st' productId :
  handler_POST st b now true = (Json 200 u, st') →
  JS.parseInt (Some 10) productId = JS.parseInt None (Body.productId b) →
  ∃ a,
    AlertItem.handler_GET st' productId = Json 200 a
    ∧ AlertItem.productId a = Alert.productId (Updated.alert u)
    ∧ AlertItem.acknowledged a = Alert.acknowledged (Updated.alert u)
    ∧ AlertItem.acknowledgedAt a = or_null (Alert.acknowledgedAt (Updated.alert u))
    ∧ AlertItem.notes a = JS.or_else (Alert.notes (Updated.alert u)) (JStr "")
    ∧ AlertItem.currentStock a = totalQuantity (AlertItem.productId a) (stock st).
Proof.
  intros Hrun Hq.
  destruct (JS.truthy (Body.productId b)) eqn:Ht; cycle 1.
  { unfold handler_POST in Hrun. by rewrite Ht in Hrun. }
  destruct (JS.parseInt None (Body.productId b)) as [pid|] eqn:Hp; cycle 1.
  { unfold handler_POST in Hrun. by rewrite Ht, Hp in Hrun. }
  destruct (js_find (λ p, Product.id p = pid) (products st)) as [product|] eqn:Hf;
    cycle 1.
  { unfold handler_POST in Hrun. by rewrite Ht, Hp, Hf in Hrun. }
  rewrite (handler_POST_present st b now true pid product Ht Hp Hf) in Hrun.
  destruct (apply_action _ _ _ _) as [changed|] eqn:Ha; [|done].
  injection Hrun as <- <-.
  pose proof (apply_action_productId _ _ _ _ _ Ha) as Hpid.
  rewrite located_productId in Hpid.
  pose proof (js_find_Some_P _ _ _ Hf) as [Hprod _]. simpl in Hprod.
  pose proof (located_found_after (alerts st) pid now (touch now changed) Hpid)
    as Hfound.
  unfold AlertItem.handler_GET. rewrite Hq. simpl.
  rewrite Hf. cbv zeta. rewrite Hprod, Hfound.
  eexists. split; [reflexivity|]. simpl. by rewrite Hpid.
Qed.

Lemma alert_action_then_get_witness :
  ∃ a,
    AlertItem.handler_GET
      (handler_POST Scenario.store (Scenario.act 1 "acknowledge") "t1" true).2
      (JStr "1")
    = Json 200 a
    ∧ AlertItem.acknowledged a = true.
Proof.
  destruct (alert_action_then_get Scenario.store (Scenario.act 1 "acknowledge")
              "t1" _ _ (JStr "1") eq_refl eq_refl)
    as (a & Hget & _ & Hack & _).
  exists a. split; [exact Hget|]. rewrite Hack. reflexivity.
Defined.

Lemma elem_of_insert_by_severity x a l :
  x ∈ insert_by_severity a l ↔ x = a ∨ x ∈ l.
Proof.
  induction l as [|b l IH]; simpl.
  - rewrite list_elem_of_singleton, elem_of_nil. tauto.
  - case_match; rewrite !elem_of_cons; [rewrite IH|]; tauto.
Qed.

Lemma elem_of_sort_by_severity x l :
  x ∈ sort_by_severity l ↔ x ∈ l.
Proof.
  induction l as [|a l IH]; simpl; [done|].
  rewrite elem_of_insert_by_severity, elem_of_cons, IH. tauto.
Qed.

(** X17. The alert of a product as alerts/[productId].js returns it is
    in the listing of alerts/index.js without filters: an entry for the
    same product with the same current stock, stock status,
    acknowledgement, acknowledgement time and notes, and the same
    warehouses, names, codes and quantities in its break-down. *)
Theorem alert_of_product_is_in_listing st productId now a :
  AlertItem.handler_GET st productId = Json 200 a →
  ∃ l pa,
    handler_GET st no_filter now = Json 200 l
    ∧ pa ∈ alerts_of l
    ∧ ProductAlert.productId pa = AlertItem.productId a
    ∧ ProductAlert.product pa = AlertItem.product a
    ∧ ProductAlert.currentStock pa = AlertItem.currentStock a
    ∧ ProductAlert.stockStatus pa = AlertItem.stockStatus a
    ∧ ProductAlert.acknowledged pa = AlertItem.acknowledged a
    ∧ ProductAlert.acknowledgedAt pa = AlertItem.acknowledgedAt a
    ∧ ProductAlert.notes pa = AlertItem.notes a
    ∧ shared_breakdown <$> ProductAlert.warehouseBreakdown pa
      = item_breakdown <$> AlertItem.warehouseBreakdown a.
Proof.
  unfold AlertItem.handler_GET.
  destruct (JS.parseInt (Some 10) productId) as [pid|]; [|done]. simpl.
  destruct (js_find (λ p, Product.id p = pid) (products st)) as [product|] eqn:Hf;
    [|done].
  intros [= <-].
  eexists _, (productAlert st now product). split; [reflexivity|]. simpl.
  split_and!; try done.
  - apply elem_of_sort_by_severity, list_elem_of_fmap_2.
    unfold js_find in Hf. destruct (list_find _ _) as [[i x]|] eqn:E; [|done].
    simpl in Hf. simplify_eq.
    apply list_find_Some in E as (E & _). by eapply list_elem_of_lookup_2.
  - rewrite <- !list_fmap_compose. done.
Qed.

Lemma alert_of_product_is_in_listing_witness :
  ∃ l pa,
    handler_GET Scenario.store no_filter "t1" = Json 200 l
    ∧ pa ∈ alerts_of l
    ∧ ProductAlert.productId pa = 2
    ∧ status (ProductAlert.stockStatus pa) = "out".
Proof.
  destruct (alert_of_product_is_in_listing Scenario.store (JStr "2") "t1" _ eq_refl)
    as (l & pa & Hl & Hin & Hid & _ & _ & Hst & _).
  exists l, pa. split_and!; [exact Hl|exact Hin|exact Hid|].
  rewrite Hst. reflexivity.
Defined.

Lemma insert_by_severity_sorted a l :
  StronglySorted by_severity l → StronglySorted by_severity (insert_by_severity a l).
Proof.
  induction 1 as [|b l Hs IH Hb]; simpl.
  - repeat constructor.
  - destruct (Z.ltb_spec (severity (ProductAlert.stockStatus a))
                (severity (ProductAlert.stockStatus b))).
    + constructor; [done|].
      apply Forall_forall. intros x [->|Hx]%elem_of_insert_by_severity.
      * unfold by_severity. lia.
      * by apply (proj1 (Forall_forall _ _) Hb).
    + constructor; [by constructor|].
      constructor; [done|].
      eapply Forall_impl; [exact Hb|]. unfold by_severity. intros; simpl in *. lia.
Qed.

Lemma sort_by_severity_sorted l : StronglySorted by_severity (sort_by_severity l).
Proof.
  induction l as [|a l IH]; simpl; [constructor|].
  by apply insert_by_severity_sorted.
Qed.

Lemma insert_by_severity_head a l :
  Forall (by_severity a) l → insert_by_severity a l = a :: l.
Proof.
  destruct 1 as [|b l Hb _]; simpl; [done|].
  unfold by_severity in Hb.
  by rewrite (proj2 (Z.ltb_ge _ _)) by lia.
Qed.

Lemma filter_insert_by_severity (P : ProductAlert.t → Prop)
  `{∀ x, Decision (P x)} a l :
  StronglySorted by_severity l →
  filter P (insert_by_severity a l)
  = if decide (P a) then insert_by_severity a (filter P l) else filter P l.
Proof.
  induction 1 as [|b l Hs IH Hb]; simpl.
  - rewrite filter_cons, filter_nil. by case_decide.
  - destruct (Z.ltb_spec (severity (ProductAlert.stockStatus a))
                (severity (ProductAlert.stockStatus b))) as [Hlt|Hge].
    + rewrite !filter_cons, IH.
      destruct (decide (P a)), (decide (P b)); simpl; try done.
      by rewrite (proj2 (Z.ltb_lt _ _)) by done.
    + rewrite (filter_cons _ a).
      destruct (decide (P a)); [|done].
      rewrite insert_by_severity_head; [done|].
      apply Forall_forall. intros x [_ Hx]%list_elem_of_filter.
      apply elem_of_cons in Hx as [->|Hx].
      * unfold by_severity. lia.
      * pose proof (proj1 (Forall_forall _ _) Hb x Hx) as Hxb.
        unfold by_severity in *. lia.
Qed.

Lemma filter_sort_by_severity (P : ProductAlert.t → Prop)
  `{∀ x, Decision (P x)} l :
  filter P (sort_by_severity l) = sort_by_severity (filter P l).
Proof.
  induction l as [|a l IH]; simpl; [done|].
  rewrite filter_insert_by_severity by apply sort_by_severity_sorted.
  rewrite filter_cons, IH. by case_decide.
Qed.

Lemma filter_status_sort q l :
  filter_status q (sort_by_severity l) = sort_by_severity (filter_status q l).
Proof.
  unfold filter_status. destruct q as [s|]; [|done].
  destruct (String.eqb s ""); [done|]. apply filter_sort_by_severity.
Qed.

Lemma filter_category_sort q l :
  filter_category q (sort_by_severity l) = sort_by_severity (filter_category q l).
Proof.
  unfold filter_category. destruct q as [s|]; [|done].
  destruct (String.eqb s ""); [done|]. apply filter_sort_by_severity.
Qed.

Lemma filter_acknowledged_sort q l :
  filter_acknowledged q (sort_by_severity l)
  = sort_by_severity (filter_acknowledged q l).
Proof.
  unfold filter_acknowledged. destruct q as [s|]; [|done].
  apply filter_sort_by_severity.
Qed.

Lemma filter_status_sublist q l : filter_status q l `sublist_of` l.
Proof.
  unfold filter_status. destruct q as [s|]; [|done].
  destruct (String.eqb s ""); [done|]. apply sublist_filter.
Qed.

Lemma filter_category_sublist q l : filter_category q l `sublist_of` l.
Proof.
  unfold filter_category. destruct q as [s|]; [|done].
  destruct (String.eqb s ""); [done|]. apply sublist_filter.
Qed.

Lemma filter_acknowledged_sublist q l : filter_acknowledged q l `sublist_of` l.
Proof.
  unfold filter_acknowledged. destruct q as [s|]; [|done]. apply sublist_filter.
Qed.

Lemma sort_by_severity_Permutation l : sort_by_severity l ≡ₚ l.
Proof.
  assert (∀ a l, insert_by_severity a l ≡ₚ a :: l) as Hins.
  { intros a l'. induction l' as [|b l' IH]; simpl; [done|].
    case_match; [|done]. rewrite IH. apply Permutation_swap. }
  induction l as [|a l IH]; simpl; [done|].
  by rewrite Hins, IH.
Qed.

(** X18. The listing is in order of severity, the most severe first,
    and sorting and filtering commute: the alerts returned are the
    filtered alerts of the products, sorted, so that alerts of equal
    severity stay in the order of their products. They are a sub-list
    of the listing without filters, which is a rearrangement of the
    alerts of the products, one for each product. *)
Theorem listing_sorted_by_severity st q now :
  ∃ l all,
    handler_GET st q now = Json 200 l
    ∧ handler_GET st no_filter now = Json 200 all
    ∧ StronglySorted by_severity (alerts_of l)
    ∧ alerts_of l
      = sort_by_severity
          (filter_acknowledged (Query.acknowledged q)
             (filter_category (Query.category q)
                (filter_status (Query.status q)
                   (productAlert st now <$> products st))))
    ∧ alerts_of l `sublist_of` alerts_of all
    ∧ alerts_of all ≡ₚ productAlert st now <$> products st
    ∧ ProductAlert.productId <$> alerts_of all ≡ₚ Product.id <$> products st.
Proof.
  eexists _, _. split; [reflexivity|]. split; [reflexivity|]. simpl.
  split_and!.
  - rewrite filter_status_sort, filter_category_sort, filter_acknowledged_sort.
    apply sort_by_severity_sorted.
  - by rewrite filter_status_sort, filter_category_sort, filter_acknowledged_sort.
  - etrans; [apply filter_acknowledged_sublist|].
    etrans; [apply filter_category_sublist|]. apply filter_status_sublist.
  - apply sort_by_severity_Permutation.
  - rewrite sort_by_severity_Permutation, <- list_fmap_compose. done.
Qed.

Lemma getStockStatus_cases q r :
  classified (getStockStatus q r).
Proof.
  unfold classified, getStockStatus. simpl. repeat case_match; simpl; tauto.
Qed.

Ltac closed_prop := apply (bool_decide_unpack _); vm_compute; exact I.

Ltac absurd_status :=
  match goal with
  | H : ?x ∈ ?l |- _ => exfalso; revert H; closed_prop
  | H : ¬ ?x ∈ ?l |- _ => exfalso; apply H; closed_prop
  | H : (2 ≤ ?n)%Z ∧ _ |- _ => exfalso; destruct H; lia
  end.

Lemma summarize_counts l :
  Forall (λ a, classified (ProductAlert.stockStatus a)) l →
  let s := summarize l in
  (total s = critical s + low s + adequate s + overstocked s)%nat
  ∧ (needsAttention s ≤ critical s + low s)%nat.
Proof.
  unfold summarize. simpl.
  induction 1 as [|a l Ha _ [IH1 IH2]]; [done|].
  rewrite !filter_cons. simpl.
  destruct Ha as [[Hs Hv]|[[Hs Hv]|[[Hs Hv]|[[Hs Hv]|[Hs Hv]]]]];
    repeat case_decide; unfold has_status in *; rewrite ?Hs, ?Hv in *;
    first [ absurd_status | simpl; lia ].
Qed.

(** X19. In the summary of the listing every product is counted once:
    the total is the number of products and is the sum of the critical
    (with out of stock), low, adequate and overstocked counts; the
    alerts that need attention are among the critical and low ones. *)
Theorem summary_counts_add_up st q now :
  ∃ l,
    handler_GET st q now = Json 200 l
    ∧ total (summary l) = length (products st)
    ∧ (total (summary l)
       = critical (summary l) + low (summary l) + adequate (summary l)
         + overstocked (summary l))%nat
    ∧ (needsAttention (summary l) ≤ critical (summary l) + low (summary l))%nat.
Proof.
  eexists. split; [reflexivity|]. cbn [summary].
  assert (Forall (λ a, classified (ProductAlert.stockStatus a))
            (sort_by_severity (productAlert st now <$> products st)))
    as Hc.
  { apply Forall_forall. intros a Ha.
    apply (proj1 (elem_of_sort_by_severity _ _)) in Ha.
    apply list_elem_of_fmap_1 in Ha as (p & -> & _).
    apply getStockStatus_cases. }
  destruct (summarize_counts _ Hc) as [H1 H2].
  split_and!; [|exact H1|exact H2].
  simpl. by rewrite sort_by_severity_length, length_fmap.
Qed.

End alert_reads.

(** ** The classifier in integers *)

Section classifier_more.

Lemma ratio_tests q r :
  0 < r →
  JS.strict_eq (JS.div q r) (Fin 0) = (q =? 0)
  ∧ JS.lt (JS.div q r) (Fin (1 # 2)) = (2 * q <? r)
  ∧ JS.lt (JS.div q r) (Fin 1) = (q <? r)
  ∧ JS.gt (JS.div q r) (Fin 3) = (3 * r <? q).
Proof.
  intros Hr. destruct r as [|p|p]; try lia.
  unfold JS.div, JS.gt, JS.lt, JS.strict_eq. simpl.
  split_and!; apply Bool.eq_iff_eq_true.
  - rewrite Qeq_bool_iff, Z.eqb_eq. unfold Qeq. simpl. lia.
  - rewrite Qltb_lt, Z.ltb_lt. unfold Qlt. simpl. lia.
  - rewrite Qltb_lt, Z.ltb_lt. unfold Qlt. simpl. lia.
  - rewrite Qltb_lt, Z.ltb_lt. unfold Qlt. simpl. lia.
Qed.

Lemma half_test q r :
  JS.Qltb (inject_Z q) (inject_Z r * (1 # 2)) = (2 * q <? r).
Proof.
  apply Bool.eq_iff_eq_true.
  rewrite Qltb_lt, Z.ltb_lt. unfold Qlt. simpl. lia.
Qed.



Lemma severity_by_integers q r :
  0 < r →
  severity (Helpers.getStockStatus q r) = (level_of q r).2
  ∧ severity (AlertsApi.getStockStatus q r) = (level_of q r).2
  ∧ status (AlertsApi.getStockStatus q r) = (level_of q r).1.
Proof.
  intros Hr.
  destruct (ratio_tests q r Hr) as (E0 & E1 & E2 & E3).
  unfold Helpers.getStockStatus, AlertsApi.getStockStatus, level_of.
  cbv zeta. rewrite E0, E1, E2, E3.
  split_and!; by repeat case_match.
Qed.

Lemma level_of_decreases q1 q2 r :
  0 < r → 0 ≤ q1 ≤ q2 → (level_of q2 r).2 ≤ (level_of q1 r).2.
Proof.
  intros Hr Hq. unfold level_of.
  repeat match goal with
    | |- context [?a =? ?b] => destruct (Z.eqb_spec a b)
    | |- context [?a <? ?b] => destruct (Z.ltb_spec a b)
    end; simpl; lia.
Qed.

(** X21. For a reorder point of zero or more, more stock is never
    more severe: between two quantities of zero or more, the larger
    one has a severity not above that of the smaller one, in the
    classifier of utils/helpers.js and in that of the alerts API. *)
Theorem severity_decreases_with_quantity (q1 q2 reorderPoint : Z) :
  0 ≤ reorderPoint → 0 ≤ q1 → q1 ≤ q2 →
  severity (Helpers.getStockStatus q2 reorderPoint)
  ≤ severity (Helpers.getStockStatus q1 reorderPoint)
  ∧ severity (AlertsApi.getStockStatus q2 reorderPoint)
    ≤ severity (AlertsApi.getStockStatus q1 reorderPoint).
Proof.
  intros Hr H1 H12.
  destruct (decide (reorderPoint = 0)) as [->|Hne].
  - unfold Helpers.getStockStatus, AlertsApi.getStockStatus.
    rewrite !div_by_zero by lia.
    destruct (Z.eqb_spec q1 0), (Z.eqb_spec q2 0); simpl; lia.
  - assert (0 < reorderPoint) as Hpos by lia.
    destruct (severity_by_integers q1 reorderPoint Hpos) as (-> & -> & _).
    destruct (severity_by_integers q2 reorderPoint Hpos) as (-> & -> & _).
    split; apply level_of_decreases; lia.
Qed.

Lemma severity_decreases_with_quantity_witness :
  severity (Helpers.getStockStatus 120 100)
  ≤ severity (Helpers.getStockStatus 30 100).
Proof.
  exact (proj1 (severity_decreases_with_quantity 30 120 100
                  ltac:(lia) ltac:(lia) ltac:(lia))).
Defined.

(** X22. For a reorder point of zero or more, the recommendation and
    the status of the alerts API go together: a product gets a
    recommendation exactly when its status is out of stock, critical
    or low (severity 2 or more); the urgency is "critical" exactly
    when the status is out of stock or critical (severity 3 or more);
    and with the recommended quantity added the status is
    "adequate". *)
Theorem recommendation_agrees_with_status (currentStock reorderPoint : Z)
  (unitCost : Q) :
  0 ≤ reorderPoint →
  (is_Some (AlertsApi.getReorderRecommendation currentStock reorderPoint unitCost)
   ↔ 2 ≤ severity (AlertsApi.getStockStatus currentStock reorderPoint))
  ∧ (∀ r,
       AlertsApi.getReorderRecommendation currentStock reorderPoint unitCost
       = Some r →
       (AlertsApi.urgency r = "critical"
        ↔ 3 ≤ severity (AlertsApi.getStockStatus currentStock reorderPoint))
       ∧ status (AlertsApi.getStockStatus
                   (currentStock + AlertsApi.recommendedQuantity r) reorderPoint)
         = "adequate").
Proof.
  intros Hr. unfold AlertsApi.getReorderRecommendation.
  rewrite half_test.
  destruct (decide (reorderPoint = 0)) as [->|Hne].
  - destruct (Z.geb_spec currentStock 0) as [Hge|Hlt].
    + split; [|done].
      unfold AlertsApi.getStockStatus. rewrite div_by_zero by lia.
      split; [by intros [? ?]|].
      destruct (Z.eqb_spec currentStock 0); simpl; lia.
    + assert (JS.div currentStock 0 = Inf true) as Hd.
      { unfold JS.div. simpl.
        rewrite (proj2 (Z.eqb_neq _ _)) by lia.
        by rewrite (proj2 (Z.ltb_lt _ _)) by lia. }
      split.
      * unfold AlertsApi.getStockStatus. rewrite Hd. simpl.
        split; [lia|by eexists].
      * intros r [= <-]. simpl.
        replace (currentStock + (0 * 2 - currentStock)) with 0 by lia.
        split; [|reflexivity].
        unfold AlertsApi.getStockStatus. rewrite Hd. simpl.
        rewrite (proj2 (Z.ltb_lt _ _)) by lia. done.
  - assert (0 < reorderPoint) as Hpos by lia.
    destruct (severity_by_integers currentStock reorderPoint Hpos)
      as (_ & -> & _).
    destruct (Z.geb_spec currentStock reorderPoint) as [Hge|Hlt].
    + split; [|done]. split; [by intros [? ?]|].
      unfold level_of.
      repeat match goal with
        | |- context [?a =? ?b] => destruct (Z.eqb_spec a b)
        | |- context [?a <? ?b] => destruct (Z.ltb_spec a b)
        end; simpl; lia.
    + split.
      * split; [|by eexists]. intros _. unfold level_of.
        repeat match goal with
          | |- context [?a =? ?b] => destruct (Z.eqb_spec a b)
          | |- context [?a <? ?b] => destruct (Z.ltb_spec a b)
          end; simpl; lia.
      * intros r [= <-]. simpl.
        destruct (severity_by_integers
                    (currentStock + (reorderPoint * 2 - currentStock))
                    reorderPoint Hpos) as (_ & _ & ->).
        unfold level_of.
        repeat match goal with
          | |- context [?a =? ?b] => destruct (Z.eqb_spec a b)
          | |- context [?a <? ?b] => destruct (Z.ltb_spec a b)
          end; simpl; split; try done; try lia; split; try done; lia.
Qed.

Lemma recommendation_agrees_with_status_witness :
  ∃ r,
    AlertsApi.getReorderRecommendation 30 100 (5 # 2) = Some r
    ∧ AlertsApi.urgency r = "critical"
    ∧ status (AlertsApi.getStockStatus (30 + AlertsApi.recommendedQuantity r) 100)
      = "adequate".
Proof.
  eexists. split; [reflexivity|].
  destruct (recommendation_agrees_with_status 30 100 (5 # 2) ltac:(lia))
    as (_ & H).
  destruct (H _ eq_refl) as (Hu & Hs).
  split; [|exact Hs]. reflexivity.
Defined.



End classifier_more.

(** ** Transfers and alerts *)

Section transfer_alerts.
Import AlertsApi.











End transfer_alerts.

(** ** Ids as the address of a request has them *)

Section decimal_text.








End decimal_text.
